(** * Montreal permit ingestion: normalisation and borough statistics

    A shallow embedding of [scripts/ingest_permits.py]: the borough name
    canonicaliser [normalize_borough], the record normaliser
    [process_permit], the aggregator [compute_borough_stats] and the
    processing step of [main], with the properties of the specification
    proved about them. *)

From Stdlib Require Import ZArith NArith QArith Qround List Lia Lqa Permutation Sorted.
From stdpp Require Import base option list strings gmap sorting.
Import ListNotations.

Local Open Scope Z_scope.

(** ** Python values and exceptions *)

(** The exceptions the modelled code can raise. *)
Inductive exn : Type :=
  | AttributeError
  | TypeError
  | ValueError
  | OverflowError
  | IndexError
  | ZeroDivisionError.

(** A computation either returns a value or raises. *)
Inductive result (A : Type) : Type :=
  | Ok (a : A)
  | Raise (e : exn).
Arguments Ok {A} a.
Arguments Raise {A} e.

#[global] Instance result_ret : MRet result := fun A a => Ok a.
#[global] Instance result_bind : MBind result := fun A B f m =>
  match m with
  | Ok a => f a
  | Raise e => Raise e
  end.

(** [try: ... except (ValueError, TypeError): handler]. *)
Definition try_except_value_type {A} (body : result A) (handler : A) : result A :=
  match body with
  | Ok a => Ok a
  | Raise ValueError => Ok handler
  | Raise TypeError => Ok handler
  | Raise e => Raise e
  end.

(** A Python [str] is a sequence of Unicode code points. *)
Definition str : Type := list N.

(** Decoding of the UTF-8 bytes of a literal into code points, so that the
    tables below can be written as they are in the source. *)
Fixpoint utf8_decode (pending : nat) (acc : N) (bs : list N) : str :=
  match bs with
  | [] => []
  | b :: bs' =>
      match pending with
      | O =>
          if (b <? 128)%N then b :: utf8_decode 0 0%N bs'
          else if (b <? 224)%N then utf8_decode 1 (N.land b 31) bs'
          else if (b <? 240)%N then utf8_decode 2 (N.land b 15) bs'
          else utf8_decode 3 (N.land b 7) bs'
      | S k =>
          let acc' := N.lor (N.shiftl acc 6) (N.land b 63) in
          match k with
          | O => acc' :: utf8_decode 0 0%N bs'
          | S _ => utf8_decode k acc' bs'
          end
      end
  end.

Definition u (s : string) : str :=
  utf8_decode 0 0%N (map Ascii.N_of_ascii (String.list_ascii_of_string s)).

Definition EM_DASH : N := 8212.  (* U+2014 *)
Definition EN_DASH : N := 8211.  (* U+2013 *)
Definition HYPHEN : N := 45.     (* U+002D *)

(** [str.isspace] on one code point: the whitespace of the Unicode
    character database that [str.strip()] removes. *)
Definition py_isspace (c : N) : bool :=
  ((9 <=? c) && (c <=? 13) || (28 <=? c) && (c <=? 32) || (c =? 133) || (c =? 160)
   || (c =? 5760) || (8192 <=? c) && (c <=? 8202) || (c =? 8232) || (c =? 8233)
   || (c =? 8239) || (c =? 8287) || (c =? 12288))%N.

Fixpoint lstrip (s : str) : str :=
  match s with
  | [] => []
  | c :: s' => if py_isspace c then lstrip s' else s
  end.

Definition rstrip (s : str) : str := rev (lstrip (rev s)).

(** [s.strip()] *)
Definition strip (s : str) : str := rstrip (lstrip s).

(** [s.replace(old, new)] for a one-character [old]. *)
Definition replace_char (old : N) (new : str) (s : str) : str :=
  flat_map (fun c => if (c =? old)%N then new else [c]) s.

(** [s[:n]] for [n >= 0]. *)
Definition slice_to (n : nat) (s : str) : str := firstn n s.

(** ** Floating point

    The program uses Python's [float] for the statistics and for the
    coordinates.  Floats are taken through an interface: the operations
    the program applies, and the properties of correctly rounded IEEE-754
    arithmetic that the proofs rely on.

    - An integer quotient [a / b], a product [x * k] and [round(x, d)] are
      each the correct rounding of an exact value, and rounding preserves
      the order: the three monotonicity laws.
    - The quotient of [q * b] by [b] is the correct rounding of [q], which
      is [float(q)]; integers up to [2 ^ 53] and their products within
      that bound are floats; a float with an integer value, and half an
      integer, have at most one decimal and are left alone by [round]:
      the four exactness laws.

    The operations are total here: Python raises [OverflowError] beyond
    1.8e308, out of the reach of counts and day differences.  A model in
    exact rational arithmetic, [rational_float], satisfies the
    laws and is used to run the program on concrete inputs. *)
Class PyFloat : Type := {
  float : Type;
  (** [float(z)], for an integer within the range of a float *)
  float_of_int : Z -> float;
  (** [a / b] on integers, [b] non-zero *)
  truediv : Z -> Z -> float;
  (** [x * k] for a float [x] and an integer [k] *)
  fmul_int : float -> Z -> float;
  (** [round(x, ndigits)] *)
  fround : float -> Z -> float;
  (** [x <= y] *)
  fle : float -> float -> Prop;
  (** [bool(x)]: a float is falsy exactly when it is zero *)
  float_truthy : float -> bool;
  (** [float(s)] on a string; [None] stands for [ValueError] *)
  float_of_str : str -> option float;
  (** [float(z)] on an arbitrary integer; [None] stands for [OverflowError] *)
  float_of_big_int : Z -> option float;

  truediv_mono : forall a b n, 0 < n -> a <= b -> fle (truediv a n) (truediv b n);
  fmul_int_mono : forall x y k, 0 < k -> fle x y -> fle (fmul_int x k) (fmul_int y k);
  fround_mono : forall x y d, 0 <= d -> fle x y -> fle (fround x d) (fround y d);
  truediv_exact : forall q b, b <> 0 -> truediv (q * b) b = float_of_int q;
  fmul_int_exact : forall a k,
    Z.abs a <= 2 ^ 53 -> Z.abs k <= 2 ^ 53 -> Z.abs (a * k) <= 2 ^ 53 ->
    fmul_int (float_of_int a) k = float_of_int (a * k);
  fround_int : forall z d, 0 <= d -> fround (float_of_int z) d = float_of_int z;
  fround_half : forall a d, 1 <= d -> fround (truediv a 2) d = truediv a 2
}.

(** ** Calendar dates

    [datetime.date] with the proleptic Gregorian ordinal of CPython's
    [_ymd2ord]; the difference of two dates is the difference of their
    ordinals. *)
Record date : Type := mkdate { dyear : Z; dmonth : Z; dday : Z }.

(** A [datetime.datetime]: a date, a time of day and an optional UTC
    offset in seconds. *)
Record datetime : Type := mkdatetime {
  dt_date : date;
  dt_hour : Z;
  dt_minute : Z;
  dt_second : Z;
  dt_microsecond : Z;
  dt_utcoffset : option Z
}.

Definition is_leap (y : Z) : bool :=
  (y mod 4 =? 0) && (negb (y mod 100 =? 0) || (y mod 400 =? 0)).

Definition days_before_year (y : Z) : Z :=
  (y - 1) * 365 + (y - 1) / 4 - (y - 1) / 100 + (y - 1) / 400.

Definition DAYS_IN_MONTH : list Z := [31; 28; 31; 30; 31; 30; 31; 31; 30; 31; 30; 31].

Definition days_in_month (y m : Z) : Z :=
  if (m =? 2) && is_leap y then 29 else nth (Z.to_nat (m - 1)) DAYS_IN_MONTH 0.

Definition days_before_month (y m : Z) : Z :=
  fold_right Z.add 0 (firstn (Z.to_nat (m - 1)) DAYS_IN_MONTH)
  + (if (2 <? m) && is_leap y then 1 else 0).

Definition toordinal (d : date) : Z :=
  days_before_year (dyear d) + days_before_month (dyear d) (dmonth d) + dday d.

(** [(d2 - d1).days] *)
Definition date_sub_days (d2 d1 : date) : Z := toordinal d2 - toordinal d1.

(** [datetime.fromisoformat] is a function of the standard library, and
    the strings it accepts depend on the version of Python: the program is
    embedded over any parser that rejects the empty string.  [None] stands
    for the [ValueError] it raises on a malformed string. *)
Class IsoParser : Type := {
  fromisoformat : str -> option datetime;
  fromisoformat_empty : fromisoformat [] = None
}.

(** ** The data of the program, over the type [F] of the floats *)

(** The scalar values a raw record can hold (decoded JSON). *)
Inductive pyval (F : Type) : Type :=
  | VNone
  | VBool (b : bool)
  | VInt (z : Z)
  | VFloat (x : F)
  | VStr (s : str).
Arguments VNone {F}.
Arguments VBool {F} b.
Arguments VInt {F} z.
Arguments VFloat {F} x.
Arguments VStr {F} s.

(** A normalised permit, the [dict] that [process_permit] returns. *)
Record permit (F : Type) : Type := mkpermit {
  external_id : pyval F;
  permit_id : pyval F;
  application_date : option str;
  issue_date : option str;
  processing_days : option Z;
  address : pyval F;
  borough_raw : pyval F;
  borough_normalized : str;
  type_code : pyval F;
  type_description : pyval F;
  building_type : pyval F;
  building_category : pyval F;
  work_nature : pyval F;
  housing_units : pyval F;
  latitude : option F;
  longitude : option F
}.
Arguments mkpermit {F}.
Arguments external_id {F} p.
Arguments permit_id {F} p.
Arguments application_date {F} p.
Arguments issue_date {F} p.
Arguments processing_days {F} p.
Arguments address {F} p.
Arguments borough_raw {F} p.
Arguments borough_normalized {F} p.
Arguments type_code {F} p.
Arguments type_description {F} p.
Arguments building_type {F} p.
Arguments building_category {F} p.
Arguments work_nature {F} p.
Arguments housing_units {F} p.
Arguments latitude {F} p.
Arguments longitude {F} p.

(** A statistic is an [int] or a [float]. *)
Inductive num (F : Type) : Type :=
  | NInt (z : Z)
  | NFloat (x : F).
Arguments NInt {F} z.
Arguments NFloat {F} x.

(** An entry of the statistics, the [dict] of one borough. *)
Record borough_stats (F : Type) : Type := mkstats {
  borough : str;
  year : Z;
  total_permits : Z;
  permits_issued : Z;
  permits_pending : Z;
  median_processing_days : num F;
  avg_processing_days : num F;
  p90_processing_days : num F;
  pct_within_90_days : num F;
  pct_within_120_days : num F
}.
Arguments mkstats {F}.
Arguments borough {F} b.
Arguments year {F} b.
Arguments total_permits {F} b.
Arguments permits_issued {F} b.
Arguments permits_pending {F} b.
Arguments median_processing_days {F} b.
Arguments avg_processing_days {F} b.
Arguments p90_processing_days {F} b.
Arguments pct_within_90_days {F} b.
Arguments pct_within_120_days {F} b.

Section Program.
Context `{PyFloat} `{IsoParser}.

(** [bool(v)] *)
Definition truthy (v : pyval float) : bool :=
  match v with
  | VNone => false
  | VBool b => b
  | VInt z => negb (z =? 0)
  | VFloat x => float_truthy x
  | VStr s => match s with [] => false | _ => true end
  end.

(** [a or b] *)
Definition py_or (a b : pyval float) : pyval float := if truthy a then a else b.

(** A call of a [str] method on a value: only a [str] has the attribute. *)
Definition str_method {A} (v : pyval float) (f : str -> A) : result A :=
  match v with
  | VStr s => Ok (f s)
  | _ => Raise AttributeError
  end.

(** [v[:n]]: the scalars other than [str] are not subscriptable. *)
Definition py_slice_to (n : nat) (v : pyval float) : result str :=
  match v with
  | VStr s => Ok (slice_to n s)
  | _ => Raise TypeError
  end.

(** A raw record: a [dict] with string keys. *)
Definition raw_record : Type := gmap string (pyval float).

(** [raw.get(key)] and [raw.get(key, default)] *)
Definition dict_get (raw : raw_record) (key : string) : pyval float :=
  default VNone (raw !! key).
Definition dict_get_default (raw : raw_record) (key : string) (d : pyval float) : pyval float :=
  default d (raw !! key).

(** ** Borough name canonicaliser *)

Definition BOROUGH_ALIASES : list (str * str) :=
  [ (u "Côte-des-Neiges—Notre-Dame-de-Grâce", u "Côte-des-Neiges-Notre-Dame-de-Grâce");
    (u "Mercier—Hochelaga-Maisonneuve", u "Mercier-Hochelaga-Maisonneuve");
    (u "L'Île-Bizard—Sainte-Geneviève", u "L'Île-Bizard-Sainte-Geneviève");
    (u "Rivière-des-Prairies—Pointe-aux-Trembles", u "Rivière-des-Prairies-Pointe-aux-Trembles");
    (u "Villeray—Saint-Michel—Parc-Extension", u "Villeray-Saint-Michel-Parc-Extension");
    (u "Plateau-Mont-Royal", u "Le Plateau-Mont-Royal");
    (u "Plateau Mont-Royal", u "Le Plateau-Mont-Royal");
    (u "Sud-Ouest", u "Le Sud-Ouest");
    (u "Montreal-Nord", u "Montréal-Nord");
    (u "Saint-Leonard", u "Saint-Léonard") ].

Definition str_eqb (a b : str) : bool := bool_decide (a = b).

(** [table.get(key, default)] on a constant table without duplicate keys. *)
Fixpoint alias_get (table : list (str * str)) (key : str) (d : str) : str :=
  match table with
  | [] => d
  | (k, v) :: rest => if str_eqb k key then v else alias_get rest key d
  end.

Definition normalize_borough (name : pyval float) : result str :=
  if negb (truthy name) then Ok []
  else
    stripped ← str_method name strip;
    let cleaned := replace_char EN_DASH [HYPHEN] (replace_char EM_DASH [HYPHEN] stripped) in
    Ok (alias_get BOROUGH_ALIASES cleaned cleaned).

(** ** Record normaliser *)

Definition LETTER_Z : N := 90.

(** [datetime.fromisoformat(v.replace("Z", "+00:00")).date()] *)
Definition parse_date (v : pyval float) : result date :=
  s ← str_method v (replace_char LETTER_Z (u "+00:00"));
  match fromisoformat s with
  | Some dt => Ok (dt_date dt)
  | None => Raise ValueError
  end.

(** The computation of [processing_days] at the head of [process_permit]. *)
Definition compute_processing_days (app_date issue_date : pyval float) : result (option Z) :=
  if truthy app_date && truthy issue_date then
    try_except_value_type
      (d1 ← parse_date app_date;
       d2 ← parse_date issue_date;
       let processing_days := date_sub_days d2 d1 in
       Ok (if processing_days <? 0 then None else Some processing_days))
      None
  else Ok None.

(** [float(v)] *)
Definition py_float (v : pyval float) : result float :=
  match v with
  | VNone => Raise TypeError
  | VBool b => Ok (float_of_int (if b then 1 else 0))
  | VInt z => match float_of_big_int z with Some x => Ok x | None => Raise OverflowError end
  | VFloat x => Ok x
  | VStr s => match float_of_str s with Some x => Ok x | None => Raise ValueError end
  end.

(** [f(v) if v else None] *)
Definition if_truthy {A} (v : pyval float) (f : pyval float -> result A) : result (option A) :=
  if truthy v then a ← f v; Ok (Some a) else Ok None.

Definition process_permit (raw : raw_record) : result (permit float) :=
  let app_date := dict_get raw "date_debut" in
  let issue_date := dict_get raw "date_emission" in
  processing_days ← compute_processing_days app_date issue_date;
  let borough_raw := py_or (dict_get_default raw "arrondissement" (VStr [])) (VStr []) in
  borough ← normalize_borough borough_raw;
  let lat := dict_get raw "latitude" in
  let lon := dict_get raw "longitude" in
  application_date ← if_truthy app_date (py_slice_to 10);
  issue_date ← if_truthy issue_date (py_slice_to 10);
  latitude ← if_truthy lat py_float;
  longitude ← if_truthy lon py_float;
  Ok {| external_id := dict_get raw "no_demande";
        permit_id := dict_get raw "id_permis";
        application_date := application_date;
        issue_date := issue_date;
        processing_days := processing_days;
        address := dict_get raw "emplacement";
        borough_raw := borough_raw;
        borough_normalized := borough;
        type_code := dict_get_default raw "code_type_base_demande" (VStr []);
        type_description := dict_get raw "description_type_demande";
        building_type := dict_get raw "description_type_batiment";
        building_category := dict_get raw "description_categorie_batiment";
        work_nature := dict_get raw "nature_travaux";
        housing_units := dict_get raw "nb_logements";
        latitude := latitude;
        longitude := longitude |}.

(** ** Borough statistics aggregator *)

(** [round(v, ndigits)] with [ndigits >= 0]: an [int] is returned as it is. *)
Definition py_round (v : num float) (ndigits : Z) : num float :=
  match v with
  | NInt z => NInt z
  | NFloat x => NFloat (fround x ndigits)
  end.

(** [a <= b] on statistics. *)
Definition num_le (a b : num float) : Prop :=
  match a, b with
  | NInt x, NInt y => x <= y
  | NInt x, NFloat y => fle (float_of_int x) y
  | NFloat x, NInt y => fle x (float_of_int y)
  | NFloat x, NFloat y => fle x y
  end.

Definition str_truthy (s : str) : bool :=
  match s with [] => false | _ => true end.

Definition opt_truthy (o : option str) : bool :=
  match o with Some s => str_truthy s | None => false end.

(** [a < b] on strings: lexicographic on code points. *)
Fixpoint str_ltb (a b : str) : bool :=
  match a, b with
  | _, [] => false
  | [], _ :: _ => true
  | x :: a', y :: b' => (x <? y)%N || ((x =? y)%N && str_ltb a' b')
  end.

(** [sorted(l)]: a stable sort that compares with [<] only. *)
Fixpoint insert_sorted {A} (ltb : A -> A -> bool) (x : A) (l : list A) : list A :=
  match l with
  | [] => [x]
  | y :: l' => if ltb y x then y :: insert_sorted ltb x l' else x :: l
  end.

Fixpoint sorted {A} (ltb : A -> A -> bool) (l : list A) : list A :=
  match l with
  | [] => []
  | x :: l' => insert_sorted ltb x (sorted ltb l')
  end.

(** [by_borough[b].append(p)] on a [defaultdict(list)]; the dictionary
    keeps its keys in insertion order. *)
Fixpoint dd_append (d : list (str * list (permit float))) (b : str) (p : permit float)
  : list (str * list (permit float)) :=
  match d with
  | [] => [(b, [p])]
  | (k, ps) :: rest =>
      if str_eqb k b then (k, ps ++ [p]) :: rest else (k, ps) :: dd_append rest b p
  end.

Definition group_by_borough (permits : list (permit float)) : list (str * list (permit float)) :=
  fold_left
    (fun by_borough p =>
       if str_truthy (borough_normalized p)
       then dd_append by_borough (borough_normalized p) p
       else by_borough)
    permits [].

(** The order of the items of [by_borough]: the keys are distinct, so the
    comparison of two [(borough, permits)] tuples is decided by the keys. *)
Definition item_ltb (a b : str * list (permit float)) : bool := str_ltb (fst a) (fst b).

Definition len {A} (l : list A) : Z := Z.of_nat (length l).

(** [l[i]], a negative index counting from the end. *)
Definition py_index (l : list Z) (i : Z) : result Z :=
  let j := if i <? 0 then i + len l else i in
  if (0 <=? j) && (j <? len l) then Ok (nth (Z.to_nat j) l 0) else Raise IndexError.

(** [a / b] on integers. *)
Definition py_truediv (a b : Z) : result float :=
  if b =? 0 then Raise ZeroDivisionError else Ok (truediv a b).

(** [sum(l)] *)
Definition py_sum (l : list Z) : Z := fold_left Z.add l 0.

(** [sum(1 for d in days if d <= bound)] *)
Definition count_within (bound : Z) (days : list Z) : Z :=
  len (List.filter (fun d => d <=? bound) days).

(** The durations of the issued permits of a group, sorted. *)
Definition durations (issued : list (permit float)) : list Z :=
  sorted Z.ltb
    (flat_map
       (fun p => match processing_days p with
                 | Some d => if 0 <=? d then [d] else []
                 | None => []
                 end)
       issued).

(** [int(n * 0.9)] for a list length [n]: the double nearest to 0.9 lies
    about 2.2e-17 above it, so for every length below 10^14 the rounded product
    stays in the unit interval of [9 * n / 10] and truncates to its floor. *)
Definition p90_index (n : Z) : Z := 9 * n / 10.

(** The five duration statistics of a group, before rounding. *)
Definition duration_stats (days : list Z) : result (num float * num float * num float * num float * num float) :=
  match days with
  | [] => Ok (NInt 0, NInt 0, NInt 0, NInt 0, NInt 0)
  | _ :: _ =>
      let median_idx := len days / 2 in
      median ←
        (if negb (len days mod 2 =? 0)
         then d ← py_index days median_idx; Ok (NInt d)
         else lo ← py_index days (median_idx - 1);
              hi ← py_index days median_idx;
              m ← py_truediv (lo + hi) 2;
              Ok (NFloat m));
      avg ← py_truediv (py_sum days) (len days);
      let p90_idx := p90_index (len days) in
      p90 ← py_index days (Z.min p90_idx (len days - 1));
      r90 ← py_truediv (count_within 90 days) (len days);
      let within_90 := fmul_int r90 100 in
      r120 ← py_truediv (count_within 120 days) (len days);
      let within_120 := fmul_int r120 100 in
      Ok (median, NFloat avg, NInt p90, NFloat within_90, NFloat within_120)
  end.

(** The body of the loop over the boroughs. *)
Definition borough_entry (year : Z) (item : str * list (permit float)) : result (borough_stats float) :=
  let '(borough, borough_permits) := item in
  let total := len borough_permits in
  let issued := List.filter (fun p => opt_truthy (issue_date p)) borough_permits in
  let pending := total - len issued in
  let days := durations issued in
  '(median, avg, p90, within_90, within_120) ← duration_stats days;
  Ok {| borough := borough;
        year := year;
        total_permits := total;
        permits_issued := len issued;
        permits_pending := pending;
        median_processing_days := py_round median 1;
        avg_processing_days := py_round avg 1;
        p90_processing_days := py_round p90 1;
        pct_within_90_days := py_round within_90 2;
        pct_within_120_days := py_round within_120 2 |}.

(** A loop that builds a list, stopping at the first exception. *)
Fixpoint for_each {A B} (f : A -> result B) (l : list A) : result (list B) :=
  match l with
  | [] => Ok []
  | x :: l' => y ← f x; ys ← for_each f l'; Ok (y :: ys)
  end.

Definition compute_borough_stats (permits : list (permit float)) (year : Z)
  : result (list (borough_stats float)) :=
  let by_borough := group_by_borough permits in
  for_each (borough_entry year) (sorted item_ltb by_borough).

(** The processing step of [main] for the raw records of one year. *)
Definition process_year (raw_records : list raw_record) (year : Z)
  : result (list (permit float) * list (borough_stats float)) :=
  processed ← for_each process_permit raw_records;
  let processed := List.filter (fun p => opt_truthy (application_date p)) processed in
  stats ← compute_borough_stats processed year;
  Ok (processed, stats).

End Program.

(** ** A reference runtime

    A model of the two library interfaces, used to run the program on
    concrete records: floats as exact rationals kept in lowest terms, and
    a parser for the [YYYY-MM-DD[*HH[:MM[:SS[.fff[fff]]]][+HH:MM]]] strings
    that [datetime.isoformat] writes (the grammar of Python 3.7 to 3.10,
    which later versions extend).  The properties of the program are
    proved for every implementation of the interfaces; the reference one
    only runs the examples. *)

Module Reference.

(** *** Rational floats *)

Definition q_of_int (z : Z) : Q := Qred (inject_Z z).

Definition q_truediv (a b : Z) : Q := Qred (inject_Z a / inject_Z b).

Definition q_mul_int (x : Q) (k : Z) : Q := Qred (x * inject_Z k).

(** The integer nearest to [y], a tie going to the even neighbour. *)
Definition round_half_even (y : Q) : Z :=
  let f := Qfloor y in
  match (y - inject_Z f ?= 1 # 2)%Q with
  | Lt => f
  | Gt => f + 1
  | Eq => if Z.even f then f else f + 1
  end.

Definition q_round (x : Q) (ndigits : Z) : Q :=
  let scale := inject_Z (10 ^ ndigits) in
  Qred (inject_Z (round_half_even (x * scale)) / scale).

Definition q_truthy (x : Q) : bool := negb (Qnum x =? 0).

Definition digit (c : N) : option Z :=
  if ((48 <=? c) && (c <=? 57))%N then Some (Z.of_N c - 48) else None.

(** The value of a run of decimal digits, and how many there are. *)
Fixpoint decimal (acc : Z) (count : nat) (s : str) : option (Z * nat) :=
  match s with
  | [] => Some (acc, count)
  | c :: s' =>
      match digit c with
      | Some d => decimal (10 * acc + d) (S count) s'
      | None => None
      end
  end.

Fixpoint split_at_dot (s : str) : str * option str :=
  match s with
  | [] => ([], None)
  | c :: s' =>
      if (c =? 46)%N then ([], Some s')
      else let '(a, b) := split_at_dot s' in (c :: a, b)
  end.

(** Unsigned decimal literals [ddd] and [ddd.ddd]. *)
Definition q_of_unsigned (s : str) : option Q :=
  let '(ip, fp) := split_at_dot s in
  match ip, decimal 0 0 ip with
  | _ :: _, Some (i, _) =>
      match fp with
      | None => Some (q_of_int i)
      | Some fs =>
          match decimal 0 0 fs with
          | Some (f, k) =>
              Some (Qred (inject_Z i + inject_Z f / inject_Z (10 ^ Z.of_nat k)))
          | None => None
          end
      end
  | _, _ => None
  end.

(** [float(s)] on plain signed decimal literals. *)
Definition q_of_str (s : str) : option Q :=
  match s with
  | 45%N :: s' => Qred ∘ Qopp <$> q_of_unsigned s'
  | 43%N :: s' => q_of_unsigned s'
  | _ => q_of_unsigned s
  end.

(** *** ISO 8601 parser *)

(** Exactly [n] digits at the head of [s]. *)
Fixpoint take_digits (n : nat) (acc : Z) (s : str) : option (Z * str) :=
  match n with
  | O => Some (acc, s)
  | S n' =>
      match s with
      | c :: s' =>
          match digit c with
          | Some d => take_digits n' (10 * acc + d) s'
          | None => None
          end
      | [] => None
      end
  end.

Definition expect (c : N) (s : str) : option str :=
  match s with
  | c' :: s' => if (c' =? c)%N then Some s' else None
  | [] => None
  end.

Definition valid_date (y m d : Z) : bool :=
  (1 <=? y) && (y <=? 9999) && (1 <=? m) && (m <=? 12)
  && (1 <=? d) && (d <=? days_in_month y m).

Definition parse_isodate (s : str) : option (date * str) :=
  '(y, s) ← take_digits 4 0 s;
  s ← expect 45 s;
  '(m, s) ← take_digits 2 0 s;
  s ← expect 45 s;
  '(d, s) ← take_digits 2 0 s;
  if valid_date y m d then Some (mkdate y m d, s) else None.

(** [:NN] repeated at most [n] times: the optional minute and second. *)
Fixpoint colon_fields (n : nat) (s : str) : option (list Z * str) :=
  match n with
  | O => Some ([], s)
  | S n' =>
      match s with
      | 58%N :: s' =>
          '(v, s'') ← take_digits 2 0 s';
          '(vs, rest) ← colon_fields n' s'';
          Some (v :: vs, rest)
      | _ => Some ([], s)
      end
  end.

(** [.fff] or [.ffffff], in microseconds. *)
Definition parse_fraction (s : str) : option (Z * str) :=
  match s with
  | 46%N :: s' =>
      match take_digits 6 0 s' with
      | Some r => Some r
      | None => '(ms, rest) ← take_digits 3 0 s'; Some (ms * 1000, rest)
      end
  | _ => Some (0, s)
  end.

(** [+HH:MM] or [-HH:MM], in seconds; the string must end there. *)
Definition parse_offset (s : str) : option (option Z) :=
  match s with
  | [] => Some None
  | sign :: s' =>
      if ((sign =? 43) || (sign =? 45))%N then
        '(h, s') ← take_digits 2 0 s';
        s' ← expect 58 s';
        '(m, s') ← take_digits 2 0 s';
        match s' with
        | [] =>
            if (h <? 24) && (m <? 60)
            then Some (Some ((if (sign =? 45)%N then -1 else 1) * (h * 3600 + m * 60)))
            else None
        | _ :: _ => None
        end
      else None
  end.

Definition parse_isotime (d : date) (s : str) : option datetime :=
  '(h, s) ← take_digits 2 0 s;
  '(ms, s) ← colon_fields 2 s;
  '(us, s) ← (match ms with [_; _] => parse_fraction s | _ => Some (0, s) end);
  tz ← parse_offset s;
  let mi := nth 0 ms 0 in
  let se := nth 1 ms 0 in
  if (h <? 24) && (mi <? 60) && (se <? 60)
  then Some (mkdatetime d h mi se us tz)
  else None.

Definition iso_fromisoformat (s : str) : option datetime :=
  '(d, rest) ← parse_isodate s;
  match rest with
  | [] => Some (mkdatetime d 0 0 0 0 None)
  | _ :: time => parse_isotime d time
  end.

End Reference.

(** ** Vocabulary of the properties *)

(** The order of [str_ltb] as relations. *)
Definition str_lt (a b : str) : Prop := str_ltb a b = true.
Definition str_le (a b : str) : Prop := str_ltb b a = false.

Definition str_eq_dec : forall a b : str, {a = b} + {a <> b} :=
  List.list_eq_dec N.eq_dec.

(** A string whose first character, if any, is not whitespace. *)
Definition head_ok (s : str) : Prop :=
  match s with
  | [] => True
  | c :: _ => py_isspace c = false
  end.

(** Replacing one character by one character, on a single character. *)
Definition subst_char (old new c : N) : N := if (c =? old)%N then new else c.

(** The cleaning step of [normalize_borough]. *)
Definition clean (s : str) : str :=
  replace_char EN_DASH [HYPHEN] (replace_char EM_DASH [HYPHEN] (strip s)).

Section Vocabulary.
Context `{PyFloat} `{IsoParser}.

(** What the specification calls a date field that is present and parses:
    a string that [datetime.fromisoformat] accepts once its [Z] is written
    as an offset. *)
Definition parsed_date (v : pyval float) : option date :=
  match v with
  | VStr s => dt_date <$> fromisoformat (replace_char LETTER_Z (u "+00:00") s)
  | _ => None
  end.

(** The value of [processing_days] in the words of the specification: the
    day difference when both dates parse and it is not negative. *)
Definition expected_processing_days (raw : raw_record) : option Z :=
  match parsed_date (dict_get raw "date_debut"), parsed_date (dict_get raw "date_emission") with
  | Some d1, Some d2 =>
      if 0 <=? date_sub_days d2 d1 then Some (date_sub_days d2 d1) else None
  | _, _ => None
  end.

(** A value that is empty or a string. *)
Definition str_or_falsy (v : pyval float) : Prop := truthy v = false \/ exists s, v = VStr s.

(** The permits of a borough, in the order of the input. *)
Definition group_of (l : list (permit float)) (b : str) : list (permit float) :=
  List.filter (fun p => str_eqb b (borough_normalized p)) l.

(** The names of the boroughs, in the order of their first permit. *)
Definition borough_keys (l : list (permit float)) : list str := map fst (group_by_borough l).

Definition item_of (g : str -> list (permit float)) (k : str) : str * list (permit float) := (k, g k).

(** The groups after one more permit [p] of borough [b]. *)
Definition upd (g : str -> list (permit float)) (b : str) (p : permit float) (k : str) : list (permit float) :=
  if str_eqb k b then g k ++ [p] else g k.

Definition issued_of (ps : list (permit float)) : list (permit float) :=
  List.filter (fun p => opt_truthy (issue_date p)) ps.

Definition pending_of (ps : list (permit float)) : list (permit float) :=
  List.filter (fun p => negb (opt_truthy (issue_date p))) ps.

(** The median of a sorted list of [n > 0] durations. *)
Definition median_of (days : list Z) : num float :=
  let n := len days in
  if n mod 2 =? 0
  then NFloat (truediv (nth (Z.to_nat (n / 2 - 1)) days 0 + nth (Z.to_nat (n / 2)) days 0) 2)
  else NInt (nth (Z.to_nat (n / 2)) days 0).

(** The 90th percentile by nearest rank. *)
Definition p90_of (days : list Z) : Z :=
  let n := len days in
  nth (Z.to_nat (Z.min (9 * n / 10) (n - 1))) days 0.

(** The share, in percent, of the durations within [bound] days. *)
Definition pct_of (bound : Z) (days : list Z) : float :=
  fmul_int (truediv (count_within bound days) (len days)) 100.

Definition duration_values (days : list Z) : num float * num float * num float * num float * num float :=
  match days with
  | [] => (NInt 0, NInt 0, NInt 0, NInt 0, NInt 0)
  | _ :: _ => (median_of days, NFloat (truediv (py_sum days) (len days)), NInt (p90_of days),
               NFloat (pct_of 90 days), NFloat (pct_of 120 days))
  end.

(** The entry of a borough, as a function of its permits. *)
Definition entry_of (year : Z) (item : str * list (permit float)) : borough_stats float :=
  let days := durations (issued_of (snd item)) in
  let '(median, avg, p90, within_90, within_120) := duration_values days in
  {| borough := fst item;
     year := year;
     total_permits := len (snd item);
     permits_issued := len (issued_of (snd item));
     permits_pending := len (snd item) - len (issued_of (snd item));
     median_processing_days := py_round median 1;
     avg_processing_days := py_round avg 1;
     p90_processing_days := py_round p90 1;
     pct_within_90_days := py_round within_90 2;
     pct_within_120_days := py_round within_120 2 |}.

(** A record whose application date is a number. *)
Definition numeric_date_record : raw_record :=
  {[ "date_debut" := VInt 20240110;
     "date_emission" := VStr (u "2024-03-20T00:00:00Z") ]}.

(** A record whose only date is a number. *)
Definition numeric_date_only_record : raw_record :=
  {[ "date_debut" := VInt 20240110 ]}.

End Vocabulary.

(** ** Example records *)

Section Examples.
Context `{PyFloat} `{IsoParser}.

(** An issued permit: the third scenario of the specification. *)
Definition issued_record : raw_record :=
  {[ "no_demande" := VStr (u "3001234567");
     "date_debut" := VStr (u "2024-01-10T00:00:00Z");
     "date_emission" := VStr (u "2024-03-20T00:00:00Z");
     "arrondissement" := VStr (u "Plateau Mont-Royal");
     "nb_logements" := VInt 3;
     "latitude" := VStr (u "45.5");
     "longitude" := VStr (u "-73.5") ]}.

Definition issued_permit : permit float :=
  {| external_id := VStr (u "3001234567");
     permit_id := VNone;
     application_date := Some (u "2024-01-10");
     issue_date := Some (u "2024-03-20");
     processing_days := Some 70;
     address := VNone;
     borough_raw := VStr (u "Plateau Mont-Royal");
     borough_normalized := u "Le Plateau-Mont-Royal";
     type_code := VStr [];
     type_description := VNone;
     building_type := VNone;
     building_category := VNone;
     work_nature := VNone;
     housing_units := VInt 3;
     latitude := float_of_str (u "45.5");
     longitude := float_of_str (u "-73.5") |}.

(** A permit that is not issued yet, and a record without application date. *)
Definition pending_record : raw_record :=
  {[ "date_debut" := VStr (u "2024-02-01T00:00:00");
     "arrondissement" := VStr (u "Sud-Ouest") ]}.

Definition undated_record : raw_record :=
  {[ "date_emission" := VStr (u "2024-02-01T00:00:00");
     "arrondissement" := VStr (u "Sud-Ouest") ]}.

(** A record whose application date is not a date. *)
Definition malformed_date_record : raw_record :=
  {[ "date_debut" := VStr (u "not-a-date") ]}.

(** An issued permit of a borough with a given duration. *)
Definition permit_with_days (b : str) (days : Z) : permit float :=
  {| external_id := VNone;
     permit_id := VNone;
     application_date := Some (u "2024-01-01");
     issue_date := Some (u "2024-06-01");
     processing_days := Some days;
     address := VNone;
     borough_raw := VStr b;
     borough_normalized := b;
     type_code := VStr [];
     type_description := VNone;
     building_type := VNone;
     building_category := VNone;
     work_nature := VNone;
     housing_units := VNone;
     latitude := None;
     longitude := None |}.

(** The sixth scenario of the specification: durations 10, 20, 30 and 40,
    in another order. *)
Definition verdun_permits : list (permit float) :=
  map (permit_with_days (u "Verdun")) [40; 10; 30; 20].

Definition verdun_entry : borough_stats float :=
  {| borough := u "Verdun";
     year := 2024;
     total_permits := 4;
     permits_issued := 4;
     permits_pending := 0;
     median_processing_days := NFloat (float_of_int 25);
     avg_processing_days := NFloat (float_of_int 25);
     p90_processing_days := NInt 40;
     pct_within_90_days := NFloat (float_of_int 100);
     pct_within_120_days := NFloat (float_of_int 100) |}.

End Examples.

(** * Properties *)

Ltac Zify.zify_post_hook ::= Z.to_euclidean_division_equations.

(** ** The reference runtime implements the interfaces *)

Import Reference.

Lemma round_half_even_bounds y :
  Qfloor y <= round_half_even y <= Qfloor y + 1.
Proof.
  unfold round_half_even.
  destruct (y - inject_Z (Qfloor y) ?= 1 # 2)%Q; [destruct (Z.even _)| |]; lia.
Qed.

Lemma round_half_even_mono x y :
  (x <= y)%Q -> round_half_even x <= round_half_even y.
Proof.
  intros Hxy.
  pose proof (Qfloor_resp_le _ _ Hxy) as Hf.
  pose proof (round_half_even_bounds x) as Bx.
  pose proof (round_half_even_bounds y) as By.
  destruct (Z.eq_dec (Qfloor x) (Qfloor y)) as [E|NE]; [|lia].
  unfold round_half_even. rewrite <- E.
  assert (Hd : (x - inject_Z (Qfloor x) <= y - inject_Z (Qfloor x))%Q).
  { apply Qplus_le_l. exact Hxy. }
  destruct (Qcompare_spec (x - inject_Z (Qfloor x)) (1 # 2)) as [E1|L1|G1];
  destruct (Qcompare_spec (y - inject_Z (Qfloor x)) (1 # 2)) as [E2|L2|G2];
    try (destruct (Z.even (Qfloor x))); try lia; exfalso; lra.
Qed.

Lemma round_half_even_int y n :
  (y == inject_Z n)%Q -> round_half_even y = n.
Proof.
  intros E. unfold round_half_even.
  rewrite (Qfloor_comp _ _ E), Qfloor_Z.
  assert (Hc : (y - inject_Z n ?= 1 # 2)%Q = Lt).
  { apply Qlt_alt. rewrite E. unfold Qminus. rewrite Qplus_opp_r. reflexivity. }
  now rewrite Hc.
Qed.

Lemma pow10_pos d : 0 <= d -> 0 < 10 ^ d.
Proof. intros. apply Z.pow_pos_nonneg; lia. Qed.

Lemma q_truediv_mono a b n :
  0 < n -> a <= b -> (q_truediv a n <= q_truediv b n)%Q.
Proof.
  intros Hn Hab. unfold q_truediv. rewrite !Qred_correct.
  unfold Qdiv. apply Qmult_le_compat_r.
  - rewrite <- Zle_Qle. exact Hab.
  - apply Qinv_le_0_compat. change 0%Q with (inject_Z 0). rewrite <- Zle_Qle. lia.
Qed.

Lemma q_mul_int_mono x y k :
  0 < k -> (x <= y)%Q -> (q_mul_int x k <= q_mul_int y k)%Q.
Proof.
  intros Hk Hxy. unfold q_mul_int. rewrite !Qred_correct.
  apply Qmult_le_compat_r; [exact Hxy|].
  change 0%Q with (inject_Z 0). rewrite <- Zle_Qle. lia.
Qed.

Lemma q_round_mono x y d :
  0 <= d -> (x <= y)%Q -> (q_round x d <= q_round y d)%Q.
Proof.
  intros Hd Hxy. unfold q_round. rewrite !Qred_correct.
  pose proof (pow10_pos d Hd) as Hp.
  assert (Hs : (0 <= inject_Z (10 ^ d))%Q).
  { change 0%Q with (inject_Z 0). rewrite <- Zle_Qle. lia. }
  unfold Qdiv. apply Qmult_le_compat_r.
  - rewrite <- Zle_Qle. apply round_half_even_mono.
    apply Qmult_le_compat_r; assumption.
  - apply Qinv_le_0_compat, Hs.
Qed.

Lemma q_truediv_exact q b : b <> 0 -> q_truediv (q * b) b = q_of_int q.
Proof.
  intros Hb. unfold q_truediv, q_of_int. apply Qred_complete.
  rewrite inject_Z_mult. field.
  intros E. apply Hb. unfold Qeq in E. simpl in E. lia.
Qed.

Lemma q_mul_int_exact a k : q_mul_int (q_of_int a) k = q_of_int (a * k).
Proof.
  unfold q_mul_int, q_of_int. apply Qred_complete.
  rewrite Qred_correct, inject_Z_mult. reflexivity.
Qed.

Lemma q_round_exact x d n :
  0 <= d -> (x * inject_Z (10 ^ d) == inject_Z n)%Q -> q_round x d = Qred x.
Proof.
  intros Hd E. unfold q_round. apply Qred_complete.
  rewrite (round_half_even_int _ _ E), <- E.
  field. pose proof (pow10_pos d Hd) as Hp.
  intros E0. unfold Qeq in E0. simpl in E0. lia.
Qed.

Lemma Qred_Qred x : Qred (Qred x) = Qred x.
Proof. apply Qred_complete, Qred_correct. Qed.

Lemma q_round_int z d : 0 <= d -> q_round (q_of_int z) d = q_of_int z.
Proof.
  intros Hd. rewrite (q_round_exact _ d (z * 10 ^ d) Hd).
  - apply Qred_Qred.
  - unfold q_of_int. rewrite Qred_correct, inject_Z_mult. reflexivity.
Qed.

Lemma q_round_half a d : 1 <= d -> q_round (q_truediv a 2) d = q_truediv a 2.
Proof.
  intros Hd. rewrite (q_round_exact _ d (a * 5 * 10 ^ (d - 1))); [|lia|].
  - apply Qred_Qred.
  - unfold q_truediv. rewrite Qred_correct.
    replace d with (1 + (d - 1)) at 1 by lia.
    rewrite Z.pow_add_r by lia. rewrite !inject_Z_mult.
    change (inject_Z (10 ^ 1)) with (inject_Z 10). change (inject_Z 10) with (10#1)%Q.
    change (inject_Z 2) with (2#1)%Q. change (inject_Z 5) with (5#1)%Q. field.
Qed.

(** The two instances. *)

Definition rational_float : PyFloat := {|
  float := Q;
  float_of_int := q_of_int;
  truediv := q_truediv;
  fmul_int := q_mul_int;
  fround := q_round;
  fle := Qle;
  float_truthy := q_truthy;
  float_of_str := q_of_str;
  float_of_big_int := fun z => Some (q_of_int z);
  truediv_mono := q_truediv_mono;
  fmul_int_mono := q_mul_int_mono;
  fround_mono := q_round_mono;
  truediv_exact := q_truediv_exact;
  fmul_int_exact := fun a k _ _ _ => q_mul_int_exact a k;
  fround_int := q_round_int;
  fround_half := q_round_half
|}.

Definition iso_parser : IsoParser := {|
  fromisoformat := iso_fromisoformat;
  fromisoformat_empty := eq_refl
|}.

(** ** The embedding on a few inputs *)

Example toordinal_epoch : toordinal (mkdate 1970 1 1) = 719163.
Proof. reflexivity. Qed.

Example toordinal_leap_year :
  date_sub_days (mkdate 2024 3 20) (mkdate 2024 1 10) = 70
  /\ date_sub_days (mkdate 2023 3 20) (mkdate 2023 1 10) = 69.
Proof. split; reflexivity. Qed.

Example strip_whitespace : strip (u "  Sud-Ouest 	") = u "Sud-Ouest".
Proof. reflexivity. Qed.

Example sorted_is_stable :
  sorted (fun a b : Z * Z => fst a <? fst b) [(2, 1); (1, 1); (2, 2); (1, 2)]
  = [(1, 1); (1, 2); (2, 1); (2, 2)].
Proof. reflexivity. Qed.

Example str_ltb_code_points :
  str_ltb (u "Verdun") (u "Ville-Marie") = true
  /\ str_ltb (u "Outremont") (u "Île-Bizard") = true
  /\ str_ltb (u "Le Sud") (u "Le Sud-Ouest") = true.
Proof. repeat split; reflexivity. Qed.

Example fromisoformat_reference :
  iso_fromisoformat (u "2024-01-10T00:00:00+00:00")
  = Some (mkdatetime (mkdate 2024 1 10) 0 0 0 0 (Some 0))
  /\ iso_fromisoformat (u "2024-02-30") = None
  /\ iso_fromisoformat (u "not-a-date") = None.
Proof. repeat split; reflexivity. Qed.

(** ** The borough name canonicaliser *)

Section StringFacts.

Lemma lstrip_head_ok s : head_ok (lstrip s).
Proof.
  induction s as [|c s IH]; simpl; [exact I|].
  destruct (py_isspace c) eqn:E; [exact IH|exact E].
Qed.

Lemma lstrip_fix s : head_ok s -> lstrip s = s.
Proof. destruct s as [|c s]; simpl; [reflexivity|]. now intros ->. Qed.

Lemma lstrip_suffix s : exists ws, s = ws ++ lstrip s.
Proof.
  induction s as [|c s [ws IH]]; simpl.
  - now exists [].
  - destruct (py_isspace c).
    + exists (c :: ws). simpl. now f_equal.
    + now exists [].
Qed.

Lemma head_ok_app_l s t : s <> [] -> head_ok (s ++ t) -> head_ok s.
Proof. destruct s; [congruence|]. auto. Qed.

Lemma lstrip_keeps_last s : head_ok (rev s) -> head_ok (rev (lstrip s)).
Proof.
  intros Hs. destruct (lstrip_suffix s) as [ws E].
  destruct (lstrip s) as [|c t] eqn:El; [exact I|].
  rewrite E, rev_app_distr in Hs.
  apply (head_ok_app_l _ (rev ws)); [|exact Hs].
  intros Hn. apply (f_equal (@length _)) in Hn. rewrite length_rev in Hn. discriminate.
Qed.

Lemma strip_head_ok s : head_ok (strip s).
Proof.
  unfold strip, rstrip.
  set (t := lstrip s).
  apply lstrip_keeps_last. rewrite rev_involutive. apply lstrip_head_ok.
Qed.

Lemma strip_last_ok s : head_ok (rev (strip s)).
Proof. unfold strip, rstrip. rewrite rev_involutive. apply lstrip_head_ok. Qed.

Lemma strip_fix s : head_ok s -> head_ok (rev s) -> strip s = s.
Proof.
  intros H1 H2. unfold strip, rstrip.
  rewrite (lstrip_fix s H1), (lstrip_fix _ H2). apply rev_involutive.
Qed.

Lemma replace_char_map old new s :
  replace_char old [new] s = map (subst_char old new) s.
Proof.
  unfold replace_char, subst_char. induction s as [|c s IH]; simpl; [reflexivity|].
  rewrite IH. now destruct (c =? old)%N.
Qed.

Lemma head_ok_map f s :
  (forall c, py_isspace c = false -> py_isspace (f c) = false) ->
  head_ok s -> head_ok (map f s).
Proof. intros Hf. destruct s; simpl; auto. Qed.

Lemma subst_hyphen_not_space old c :
  py_isspace c = false -> py_isspace (subst_char old HYPHEN c) = false.
Proof. unfold subst_char. now destruct (c =? old)%N. Qed.

Lemma map_subst_absent old new s :
  Forall (fun c => c <> old) s -> map (subst_char old new) s = s.
Proof.
  induction 1 as [|c s Hc _ IH]; simpl; [reflexivity|].
  rewrite IH. unfold subst_char.
  destruct (N.eqb_spec c old); congruence.
Qed.

Lemma subst_dashes c :
  subst_char EN_DASH HYPHEN (subst_char EM_DASH HYPHEN c) <> EM_DASH
  /\ subst_char EN_DASH HYPHEN (subst_char EM_DASH HYPHEN c) <> EN_DASH.
Proof.
  unfold subst_char.
  destruct (N.eqb_spec c EM_DASH) as [->|Hem]; [split; discriminate|].
  destruct (N.eqb_spec c EN_DASH) as [->|Hen]; [split; discriminate|].
  now split.
Qed.

Lemma clean_no_dash s :
  Forall (fun c => c <> EM_DASH) (clean s) /\ Forall (fun c => c <> EN_DASH) (clean s).
Proof.
  unfold clean. rewrite !replace_char_map, map_map.
  split; apply Forall_map, Forall_forall; intros c _; apply subst_dashes.
Qed.

Lemma clean_ends_ok s : head_ok (clean s) /\ head_ok (rev (clean s)).
Proof.
  unfold clean. rewrite !replace_char_map. split.
  - do 2 (apply head_ok_map; [apply subst_hyphen_not_space|]). apply strip_head_ok.
  - rewrite <- !map_rev.
    do 2 (apply head_ok_map; [apply subst_hyphen_not_space|]). apply strip_last_ok.
Qed.

Lemma clean_idempotent s : clean (clean s) = clean s.
Proof.
  destruct (clean_no_dash s) as [Hem Hen].
  destruct (clean_ends_ok s) as [Hh Hl].
  unfold clean at 1. rewrite (strip_fix _ Hh Hl), !replace_char_map.
  rewrite (map_subst_absent _ _ _ Hem). apply (map_subst_absent _ _ _ Hen).
Qed.

Lemma alias_get_cases table key d :
  alias_get table key d = d \/ In (alias_get table key d) (map snd table).
Proof.
  induction table as [|[k v] rest IH]; simpl; [now left|].
  destruct (str_eqb k key); [right; now left|].
  destruct IH; [now left|right; now right].
Qed.

Context `{PyFloat}.

Lemma normalize_borough_str s :
  normalize_borough (VStr s) =
  Ok (match s with
      | [] => []
      | _ :: _ => alias_get BOROUGH_ALIASES (clean s) (clean s)
      end).
Proof. destruct s; reflexivity. Qed.

Lemma normalize_borough_canonical :
  Forall (fun v => normalize_borough (VStr v) = Ok v) (map snd BOROUGH_ALIASES).
Proof. repeat constructor. Qed.

(** C5. The two aliased inputs of the specification are mapped to their
    canonical names: the spelling without article gets its article, and
    the dashes of a double name become hyphens. *)
Theorem normalize_borough_aliased_inputs :
  normalize_borough (VStr (u "Plateau Mont-Royal")) = Ok (u "Le Plateau-Mont-Royal")
  /\ normalize_borough (VStr (u "Côte-des-Neiges—Notre-Dame-de-Grâce"))
     = Ok (u "Côte-des-Neiges-Notre-Dame-de-Grâce").
Proof. split; reflexivity. Qed.

(** C6. [normalize_borough] is idempotent: on every string it returns a
    name that it maps to itself. *)
Theorem normalize_borough_idempotent (x : str) :
  exists y, normalize_borough (VStr x) = Ok y /\ normalize_borough (VStr y) = Ok y.
Proof.
  rewrite normalize_borough_str. eexists; split; [reflexivity|].
  destruct x as [|c x]; [reflexivity|].
  set (s := c :: x).
  destruct (alias_get_cases BOROUGH_ALIASES (clean s) (clean s)) as [E|Hin].
  - rewrite E, normalize_borough_str.
    pose proof (clean_idempotent s) as Hi.
    destruct (clean s) as [|c' t]; [reflexivity|].
    now rewrite Hi, E.
  - pose proof normalize_borough_canonical as Hc.
    rewrite List.Forall_forall in Hc. apply Hc, Hin.
Qed.
End StringFacts.

(** ** The record normaliser *)

Lemma bind_Ok {A B} (m : result A) (f : A -> result B) b :
  (m ≫= f) = Ok b -> exists a, m = Ok a /\ f a = Ok b.
Proof. destruct m as [a|e]; simpl; [eauto|discriminate]. Qed.

Section Normaliser.
Context `{PyFloat} `{IsoParser}.

Lemma parsed_date_falsy v : truthy v = false -> parsed_date v = None.
Proof.
  destruct v as [| | | |s]; try reflexivity.
  destruct s; [|discriminate]. intros _. simpl.
  now rewrite fromisoformat_empty.
Qed.

Lemma parse_date_str s :
  parse_date (VStr s) =
  match parsed_date (VStr s) with Some d => Ok d | None => Raise ValueError end.
Proof.
  unfold parse_date, parsed_date. simpl.
  now destruct (fromisoformat _).
Qed.

(** When the computation of [processing_days] returns, it returns the
    value the specification describes. *)
Lemma compute_processing_days_Ok a i pd :
  compute_processing_days a i = Ok pd ->
  pd = match parsed_date a, parsed_date i with
       | Some d1, Some d2 =>
           if 0 <=? date_sub_days d2 d1 then Some (date_sub_days d2 d1) else None
       | _, _ => None
       end.
Proof.
  unfold compute_processing_days.
  destruct (truthy a) eqn:Ta; simpl.
  2:{ intros [= <-]. now rewrite (parsed_date_falsy a Ta). }
  destruct (truthy i) eqn:Ti; simpl.
  2:{ intros [= <-]. rewrite (parsed_date_falsy i Ti). now destruct (parsed_date a). }
  destruct a as [| | | |sa]; try discriminate.
  unfold mbind, result_bind. rewrite parse_date_str.
  destruct (parsed_date (VStr sa)) as [d1|]; cbn beta iota; [|now intros [= <-]].
  destruct i as [| | | |si]; try discriminate.
  rewrite parse_date_str.
  destruct (parsed_date (VStr si)) as [d2|]; cbn beta iota; [|now intros [= <-]].
  cbn [try_except_value_type]. intros [= <-].
  destruct (Z.ltb_spec (date_sub_days d2 d1) 0), (Z.leb_spec 0 (date_sub_days d2 d1));
    try reflexivity; lia.
Qed.

(** It returns whenever the two values are strings or empty. *)
Lemma compute_processing_days_returns a i :
  str_or_falsy a -> str_or_falsy i -> exists pd, compute_processing_days a i = Ok pd.
Proof.
  intros Ha Hi. unfold compute_processing_days.
  destruct (truthy a) eqn:Ta; simpl; [|eexists; reflexivity].
  destruct (truthy i) eqn:Ti; simpl; [|eexists; reflexivity].
  destruct Ha as [Ha|[sa ->]]; [congruence|].
  destruct Hi as [Hi|[si ->]]; [congruence|].
  unfold mbind, result_bind. rewrite parse_date_str.
  destruct (parsed_date (VStr sa)); cbn beta iota; [|eexists; reflexivity].
  rewrite parse_date_str.
  destruct (parsed_date (VStr si)); cbn beta iota; eexists; reflexivity.
Qed.

(** The fields of a permit that [process_permit] returns. *)
Lemma process_permit_Ok raw out :
  process_permit raw = Ok out ->
  exists pd b ad idt la lo,
    compute_processing_days (dict_get raw "date_debut") (dict_get raw "date_emission") = Ok pd
    /\ normalize_borough
         (py_or (dict_get_default raw "arrondissement" (VStr [])) (VStr [])) = Ok b
    /\ if_truthy (dict_get raw "date_debut") (py_slice_to 10) = Ok ad
    /\ if_truthy (dict_get raw "date_emission") (py_slice_to 10) = Ok idt
    /\ if_truthy (dict_get raw "latitude") py_float = Ok la
    /\ if_truthy (dict_get raw "longitude") py_float = Ok lo
    /\ out = {| external_id := dict_get raw "no_demande";
                permit_id := dict_get raw "id_permis";
                application_date := ad;
                issue_date := idt;
                processing_days := pd;
                address := dict_get raw "emplacement";
                borough_raw := py_or (dict_get_default raw "arrondissement" (VStr [])) (VStr []);
                borough_normalized := b;
                type_code := dict_get_default raw "code_type_base_demande" (VStr []);
                type_description := dict_get raw "description_type_demande";
                building_type := dict_get raw "description_type_batiment";
                building_category := dict_get raw "description_categorie_batiment";
                work_nature := dict_get raw "nature_travaux";
                housing_units := dict_get raw "nb_logements";
                latitude := la;
                longitude := lo |}.
Proof.
  unfold process_permit. intros Hp.
  apply bind_Ok in Hp as (pd & Hpd & Hp).
  apply bind_Ok in Hp as (b & Hb & Hp).
  apply bind_Ok in Hp as (ad & Had & Hp).
  apply bind_Ok in Hp as (idt & Hid & Hp).
  apply bind_Ok in Hp as (la & Hla & Hp).
  apply bind_Ok in Hp as (lo & Hlo & Hp).
  injection Hp as <-.
  exists pd, b, ad, idt, la, lo. repeat split; assumption.
Qed.

Lemma if_truthy_slice_Ok v o :
  if_truthy v (py_slice_to 10) = Ok o ->
  (truthy v = false /\ o = None)
  \/ (exists s, v = VStr s /\ s <> [] /\ o = Some (slice_to 10 s)).
Proof.
  unfold if_truthy. destruct (truthy v) eqn:T; [|intros [= <-]; now left].
  destruct v as [| | | |s]; try discriminate.
  simpl. intros [= <-]. right. exists s. repeat split.
  intros ->. discriminate.
Qed.

Lemma if_truthy_slice_returns v :
  str_or_falsy v -> exists o, if_truthy v (py_slice_to 10) = Ok o.
Proof.
  intros Hv. unfold if_truthy. destruct (truthy v) eqn:T; [|eauto].
  destruct Hv as [Hv|[s ->]]; [congruence|]. simpl. eauto.
Qed.

(** The three derived date fields of a returned permit. *)
Lemma process_permit_dates raw out :
  process_permit raw = Ok out ->
  processing_days out = expected_processing_days raw
  /\ ((truthy (dict_get raw "date_debut") = false /\ application_date out = None)
      \/ (exists s, dict_get raw "date_debut" = VStr s /\ s <> []
                    /\ application_date out = Some (slice_to 10 s)))
  /\ ((truthy (dict_get raw "date_emission") = false /\ issue_date out = None)
      \/ (exists s, dict_get raw "date_emission" = VStr s /\ s <> []
                    /\ issue_date out = Some (slice_to 10 s))).
Proof.
  intros Hp.
  apply process_permit_Ok in Hp as (pd & b & ad & idt & la & lo & Hpd & _ & Had & Hid & _ & _ & ->).
  cbn [processing_days application_date issue_date].
  split; [apply compute_processing_days_Ok, Hpd|].
  split; apply if_truthy_slice_Ok; assumption.
Qed.

(** C1. The [processing_days] that [process_permit] computes is the day
    difference [issue_date - application_date] exactly when both raw date
    fields are present, parse and give a difference that is not negative;
    in every other case it is null.  The computation returns this value on
    all date fields that are strings, empty or absent, and it is the
    [processing_days] of every permit that [process_permit] returns, so
    that the output is never a negative number. *)
Theorem process_permit_processing_days raw :
  (str_or_falsy (dict_get raw "date_debut") ->
   str_or_falsy (dict_get raw "date_emission") ->
   compute_processing_days (dict_get raw "date_debut") (dict_get raw "date_emission")
   = Ok (expected_processing_days raw))
  /\ (forall out,
        process_permit raw = Ok out ->
        processing_days out = expected_processing_days raw
        /\ (forall d, processing_days out = Some d -> 0 <= d)).
Proof.
  split.
  - intros Ha Hi.
    destruct (compute_processing_days_returns _ _ Ha Hi) as [pd E].
    rewrite E. f_equal. apply compute_processing_days_Ok, E.
  - intros out Hp. destruct (process_permit_dates raw out Hp) as (Hpd & _).
    split; [exact Hpd|].
    intros d Hd. rewrite Hpd in Hd. unfold expected_processing_days in Hd.
    destruct (parsed_date _) as [d1|]; [|discriminate].
    destruct (parsed_date _) as [d2|]; [|discriminate].
    destruct (Z.leb_spec 0 (date_sub_days d2 d1)); [|discriminate].
    injection Hd as <-. assumption.
Qed.

(** C2. [process_permit] does raise on a date that is a number.  With both
    dates present, [app_date.replace] raises an [AttributeError], which the
    handler of [ValueError] and [TypeError] lets through; with the number
    alone, the slice [app_date[:10]], outside the handler, raises a
    [TypeError]. *)
Theorem process_permit_numeric_date_raises :
  process_permit numeric_date_record = Raise AttributeError
  /\ process_permit numeric_date_only_record = Raise TypeError.
Proof. split; reflexivity. Qed.

(** C3, as the code has it.  For every raw record that [process_permit]
    normalises, a date field that is a non-empty string is stored as its
    first ten characters, whether it parses or not; the output date field
    is null only when the raw field is absent, null or empty; and
    [processing_days] is null as soon as one of the two does not parse. *)
Theorem process_permit_date_fields raw out :
  process_permit raw = Ok out ->
  (forall s, dict_get raw "date_debut" = VStr s -> s <> [] ->
     application_date out = Some (slice_to 10 s))
  /\ (forall s, dict_get raw "date_emission" = VStr s -> s <> [] ->
        issue_date out = Some (slice_to 10 s))
  /\ (truthy (dict_get raw "date_debut") = false -> application_date out = None)
  /\ (truthy (dict_get raw "date_emission") = false -> issue_date out = None)
  /\ (parsed_date (dict_get raw "date_debut") = None
      \/ parsed_date (dict_get raw "date_emission") = None ->
      processing_days out = None).
Proof.
  intros Hp. destruct (process_permit_dates raw out Hp) as (Hpd & Had & Hid).
  split; [|split; [|split; [|split]]].
  - intros s Es Hs. destruct Had as [[T _]|(s' & E' & _ & ->)].
    + rewrite Es in T. destruct s; [congruence|discriminate].
    + rewrite Es in E'. now injection E' as ->.
  - intros s Es Hs. destruct Hid as [[T _]|(s' & E' & _ & ->)].
    + rewrite Es in T. destruct s; [congruence|discriminate].
    + rewrite Es in E'. now injection E' as ->.
  - intros T. destruct Had as [[_ ->]|(s' & E' & Hs & _)]; [reflexivity|].
    rewrite E' in T. destruct s'; [congruence|discriminate].
  - intros T. destruct Hid as [[_ ->]|(s' & E' & Hs & _)]; [reflexivity|].
    rewrite E' in T. destruct s'; [congruence|discriminate].
  - rewrite Hpd. unfold expected_processing_days.
    intros [-> | ->]; [reflexivity|]. now destruct (parsed_date _).
Qed.

(** C4, as the code has it.  For every raw record that [process_permit]
    normalises, each passthrough field is the raw value under its source
    key when the key is present; when the key is missing the field is
    null, except [type_code], whose default is the empty string. *)
Theorem process_permit_passthrough raw out :
  process_permit raw = Ok out ->
  external_id out = default VNone (raw !! "no_demande")
  /\ permit_id out = default VNone (raw !! "id_permis")
  /\ address out = default VNone (raw !! "emplacement")
  /\ type_code out = default (VStr []) (raw !! "code_type_base_demande")
  /\ type_description out = default VNone (raw !! "description_type_demande")
  /\ building_type out = default VNone (raw !! "description_type_batiment")
  /\ building_category out = default VNone (raw !! "description_categorie_batiment")
  /\ work_nature out = default VNone (raw !! "nature_travaux")
  /\ housing_units out = default VNone (raw !! "nb_logements").
Proof.
  intros Hp.
  apply process_permit_Ok in Hp as (pd & b & ad & idt & la & lo & _ & _ & _ & _ & _ & _ & ->).
  repeat split.
Qed.

Lemma normalize_borough_returns v : str_or_falsy v -> exists b, normalize_borough v = Ok b.
Proof.
  intros [Hv|[s ->]].
  - unfold normalize_borough. rewrite Hv. simpl. eauto.
  - rewrite normalize_borough_str. eauto.
Qed.

(** Records whose dates and borough are strings or empty, and whose
    coordinates are empty or convertible, are normalised without an
    exception: a malformed date string never makes [process_permit] raise. *)
Lemma process_permit_returns raw :
  str_or_falsy (dict_get raw "date_debut") ->
  str_or_falsy (dict_get raw "date_emission") ->
  str_or_falsy (dict_get_default raw "arrondissement" (VStr [])) ->
  (exists la, if_truthy (dict_get raw "latitude") py_float = Ok la) ->
  (exists lo, if_truthy (dict_get raw "longitude") py_float = Ok lo) ->
  exists out, process_permit raw = Ok out.
Proof.
  intros Ha Hi Hb [la Hla] [lo Hlo]. unfold process_permit.
  destruct (compute_processing_days_returns _ _ Ha Hi) as [pd ->]. simpl.
  assert (Hb' : str_or_falsy (py_or (dict_get_default raw "arrondissement" (VStr [])) (VStr []))).
  { unfold py_or. destruct (truthy _) eqn:T; [exact Hb|]. now left. }
  destruct (normalize_borough_returns _ Hb') as [b ->]. simpl.
  destruct (if_truthy_slice_returns _ Ha) as [ad ->]. simpl.
  destruct (if_truthy_slice_returns _ Hi) as [idt ->]. simpl.
  rewrite Hla. simpl. rewrite Hlo. simpl. eauto.
Qed.

End Normaliser.

(** ** The order on strings *)

Lemma str_ltb_irrefl a : str_ltb a a = false.
Proof.
  induction a as [|x a IH]; simpl; [reflexivity|].
  rewrite N.ltb_irrefl, N.eqb_refl. exact IH.
Qed.

Lemma str_ltb_trans a b c :
  str_ltb a b = true -> str_ltb b c = true -> str_ltb a c = true.
Proof.
  revert b c. induction a as [|x a IH]; intros [|y b] [|z c]; simpl; try congruence.
  destruct (N.ltb_spec x y), (N.eqb_spec x y), (N.ltb_spec y z), (N.eqb_spec y z),
    (N.ltb_spec x z), (N.eqb_spec x z); simpl; try congruence; try lia.
  apply IH.
Qed.

Lemma str_ltb_asym a b : str_ltb a b = true -> str_ltb b a = false.
Proof.
  intros Hab. destruct (str_ltb b a) eqn:Hba; [|reflexivity].
  pose proof (str_ltb_trans _ _ _ Hab Hba) as Haa.
  now rewrite str_ltb_irrefl in Haa.
Qed.

Lemma str_ltb_total a b : str_ltb a b = false -> str_ltb b a = false -> a = b.
Proof.
  revert b. induction a as [|x a IH]; intros [|y b]; simpl; try congruence.
  destruct (N.ltb_spec x y), (N.eqb_spec x y), (N.ltb_spec y x), (N.eqb_spec y x);
    simpl; try congruence; try lia.
  intros Hab Hba. f_equal; [assumption|]. now apply IH.
Qed.

#[local] Instance str_le_trans : Transitive str_le.
Proof.
  intros a b c Hab Hbc. unfold str_le in *.
  destruct (str_ltb c a) eqn:Hca; [|reflexivity].
  destruct (str_ltb a b) eqn:Hab'.
  - pose proof (str_ltb_trans _ _ _ Hca Hab') as Hcb. congruence.
  - pose proof (str_ltb_total _ _ Hab' Hab) as ->. congruence.
Qed.

Lemma str_le_antisym a b : str_le a b -> str_le b a -> a = b.
Proof. unfold str_le. intros Hab Hba. now apply str_ltb_total. Qed.

(** ** The sort *)

Section Sorting.
Context {A : Type} (ltb : A -> A -> bool).
Hypothesis ltb_asym : forall a b, ltb a b = true -> ltb b a = false.

Let le (a b : A) : Prop := ltb b a = false.

Lemma insert_sorted_perm x l : Permutation (insert_sorted ltb x l) (x :: l).
Proof.
  induction l as [|y l IH]; simpl; [reflexivity|].
  destruct (ltb y x); [|reflexivity].
  rewrite IH. apply perm_swap.
Qed.

Lemma sorted_perm l : Permutation (sorted ltb l) l.
Proof.
  induction l as [|x l IH]; simpl; [reflexivity|].
  rewrite insert_sorted_perm. now constructor.
Qed.

Lemma insert_sorted_HdRel a x l :
  le a x -> HdRel le a l -> HdRel le a (insert_sorted ltb x l).
Proof.
  intros Hax Hl. destruct l as [|y l]; simpl; [now constructor|].
  destruct (ltb y x); constructor; [now inversion Hl|assumption].
Qed.

Lemma insert_sorted_Sorted x l :
  Sorted le l -> Sorted le (insert_sorted ltb x l).
Proof.
  induction 1 as [|y l Hl IH Hy]; simpl; [repeat constructor|].
  destruct (ltb y x) eqn:Hyx.
  - constructor; [exact IH|].
    apply insert_sorted_HdRel; [|exact Hy]. apply ltb_asym, Hyx.
  - constructor; [now constructor|]. constructor. exact Hyx.
Qed.

Lemma sorted_Sorted l : Sorted le (sorted ltb l).
Proof.
  induction l as [|x l IH]; simpl; [constructor|].
  apply insert_sorted_Sorted, IH.
Qed.

Lemma sorted_length l : length (sorted ltb l) = length l.
Proof. apply Permutation_length, sorted_perm. Qed.

End Sorting.

Lemma sorted_map {A B} (f : A -> B) (ltbA : A -> A -> bool) (ltbB : B -> B -> bool) l :
  (forall a b, ltbB (f a) (f b) = ltbA a b) ->
  sorted ltbB (map f l) = map f (sorted ltbA l).
Proof.
  intros Hf. induction l as [|x l IH]; simpl; [reflexivity|].
  rewrite IH. generalize (sorted ltbA l) as k. intros k.
  induction k as [|y k IHk]; simpl; [reflexivity|].
  rewrite Hf. destruct (ltbA y x); simpl; [now rewrite IHk|reflexivity].
Qed.

Lemma sorted_str_Sorted l : StronglySorted str_le (sorted str_ltb l).
Proof.
  apply Sorted_StronglySorted; [apply str_le_trans|].
  apply (sorted_Sorted str_ltb str_ltb_asym).
Qed.

(** Sorting a list of distinct names gives a strictly increasing list. *)
Lemma sorted_str_strict l : List.NoDup l -> StronglySorted str_lt (sorted str_ltb l).
Proof.
  intros Hnd.
  assert (Hnd' : List.NoDup (sorted str_ltb l)).
  { eapply Permutation_NoDup; [symmetry; apply sorted_perm|exact Hnd]. }
  pose proof (sorted_str_Sorted l) as Hs.
  induction Hs as [|a k Hk IH Ha]; [constructor|].
  inversion Hnd' as [|? ? Hnin Hnd'']; subst.
  constructor; [apply IH, Hnd''|].
  rewrite List.Forall_forall in *. intros b Hb.
  specialize (Ha b Hb). unfold str_le in Ha. unfold str_lt.
  destruct (str_ltb a b) eqn:Hab; [reflexivity|].
  pose proof (str_ltb_total _ _ Hab Ha) as ->. contradiction.
Qed.

(** The sorted list of names depends on the set of names only. *)
Lemma sorted_str_unique l1 l2 :
  Permutation l1 l2 -> sorted str_ltb l1 = sorted str_ltb l2.
Proof.
  intros Hp.
  apply (StronglySorted_unique_strong str_le).
  - intros x1 x2 _ _. apply str_le_antisym.
  - apply sorted_str_Sorted.
  - apply sorted_str_Sorted.
  - rewrite !sorted_perm. exact Hp.
Qed.

(** ** The grouping loop *)

Section Grouping.
Context `{PyFloat}.

Lemma str_eqb_eq a b : str_eqb a b = true <-> a = b.
Proof. unfold str_eqb. apply bool_decide_eq_true. Qed.

Lemma str_eqb_neq a b : str_eqb a b = false <-> a <> b.
Proof. unfold str_eqb. apply bool_decide_eq_false. Qed.

Lemma str_truthy_nonempty s : str_truthy s = true <-> s <> [].
Proof. destruct s; simpl; split; congruence. Qed.

Lemma map_item_of_ext g g' ks :
  (forall k, In k ks -> g k = g' k) -> map (item_of g) ks = map (item_of g') ks.
Proof. intros Hg. apply map_ext_in. intros k Hk. unfold item_of. now rewrite Hg. Qed.

Lemma upd_same g b p : upd g b p b = g b ++ [p].
Proof. unfold upd. now rewrite (proj2 (str_eqb_eq b b) eq_refl). Qed.

Lemma upd_other g b p k : k <> b -> upd g b p k = g k.
Proof. intros Hne. unfold upd. now rewrite (proj2 (str_eqb_neq k b) Hne). Qed.

Lemma dd_append_item_of g ks b p :
  List.NoDup ks -> (~ In b ks -> g b = []) ->
  dd_append (map (item_of g) ks) b p =
  map (item_of (upd g b p)) (if in_dec str_eq_dec b ks then ks else ks ++ [b]).
Proof.
  induction ks as [|k ks IH]; intros Hnd Hg.
  - destruct (in_dec str_eq_dec b []) as [[]|_].
    cbn [map dd_append app]. unfold item_of. rewrite upd_same.
    rewrite Hg by (intros []). reflexivity.
  - inversion Hnd as [|? ? Hk Hnd']; subst.
    cbn [map dd_append]. unfold item_of at 1. cbn [fst snd].
    destruct (str_eqb k b) eqn:E.
    + apply str_eqb_eq in E as ->.
      destruct (in_dec str_eq_dec b (b :: ks)) as [_|n]; [|exfalso; apply n; now left].
      cbn [map]. unfold item_of at 2. rewrite upd_same.
      f_equal. apply map_item_of_ext. intros k Hin. symmetry. apply upd_other.
      intros ->. contradiction.
    + pose proof (proj1 (str_eqb_neq k b) E) as Hne.
      rewrite IH; [|assumption|].
      2:{ intros Hn. apply Hg. intros [->|Hin]; [congruence|contradiction]. }
      destruct (in_dec str_eq_dec b ks) as [i|n], (in_dec str_eq_dec b (k :: ks)) as [i'|n'].
      * cbn [map]. f_equal. unfold item_of. now rewrite upd_other.
      * exfalso. apply n'. now right.
      * exfalso. destruct i' as [->|]; [congruence|contradiction].
      * cbn [map app]. f_equal. unfold item_of. now rewrite upd_other.
Qed.

Lemma group_by_borough_snoc l p :
  group_by_borough (l ++ [p]) =
  if str_truthy (borough_normalized p)
  then dd_append (group_by_borough l) (borough_normalized p) p
  else group_by_borough l.
Proof. unfold group_by_borough. now rewrite fold_left_app. Qed.

Lemma group_of_snoc l p k :
  group_of (l ++ [p]) k = upd (group_of l) (borough_normalized p) p k.
Proof.
  unfold group_of, upd. rewrite List.filter_app. cbn [List.filter].
  destruct (str_eqb k (borough_normalized p)); [reflexivity|apply app_nil_r].
Qed.

Lemma group_of_nil_iff l b :
  group_of l b = [] <-> ~ exists p, In p l /\ borough_normalized p = b.
Proof.
  unfold group_of. split.
  - intros E (p & Hp & Hb).
    assert (Hin : In p (List.filter (fun p => str_eqb b (borough_normalized p)) l)).
    { apply List.filter_In. split; [exact Hp|]. now apply str_eqb_eq. }
    rewrite E in Hin. destruct Hin.
  - intros Hn. destruct (List.filter _ l) as [|p t] eqn:E; [reflexivity|].
    exfalso. apply Hn. exists p.
    assert (Hin : In p (List.filter (fun p => str_eqb b (borough_normalized p)) l)).
    { rewrite E. now left. }
    apply List.filter_In in Hin as [Hp Hb]. apply str_eqb_eq in Hb. auto.
Qed.

(** The dictionary built by the grouping loop. *)
Lemma group_by_borough_spec l :
  group_by_borough l = map (item_of (group_of l)) (borough_keys l)
  /\ List.NoDup (borough_keys l)
  /\ (forall b, In b (borough_keys l) <->
                b <> [] /\ exists p, In p l /\ borough_normalized p = b).
Proof.
  unfold borough_keys.
  induction l as [|p l (IHd & IHn & IHk)] using rev_ind.
  - simpl. split; [reflexivity|]. split; [constructor|].
    intros b. split; [intros []|intros (_ & p & [] & _)].
  - rewrite group_by_borough_snoc.
    set (b := borough_normalized p) in *.
    set (ks := map fst (group_by_borough l)) in *.
    destruct (str_truthy b) eqn:Tb.
    + apply str_truthy_nonempty in Tb.
      assert (Hd : dd_append (group_by_borough l) b p =
                   map (item_of (group_of (l ++ [p])))
                     (if in_dec str_eq_dec b ks then ks else ks ++ [b])).
      { rewrite IHd, dd_append_item_of; [|exact IHn|].
        - apply map_item_of_ext. intros k _. symmetry. apply group_of_snoc.
        - intros Hn. apply group_of_nil_iff. intros Hex. apply Hn, IHk. auto. }
      assert (Hf : map fst (dd_append (group_by_borough l) b p) =
                   if in_dec str_eq_dec b ks then ks else ks ++ [b]).
      { rewrite Hd, map_map. simpl. apply map_id. }
      rewrite Hf. split; [exact Hd|]. split.
      * destruct (in_dec str_eq_dec b ks) as [i|n]; [exact IHn|].
        apply NoDup_ListNoDup, NoDup_app. repeat split.
        -- now apply NoDup_ListNoDup.
        -- intros x Hx Hx'. apply list_elem_of_In in Hx.
           apply list_elem_of_singleton in Hx'. subst. contradiction.
        -- apply NoDup_singleton.
      * intros k.
        assert (Hk : In k (if in_dec str_eq_dec b ks then ks else ks ++ [b]) <-> In k ks \/ k = b).
        { destruct (in_dec str_eq_dec b ks) as [i|n].
          - split; [auto|]. intros [ ? | -> ]; assumption.
          - rewrite in_app_iff. simpl. intuition. }
        rewrite Hk, IHk. split.
        -- intros [(Hne & q & Hq & Eq)| ->].
           ++ split; [exact Hne|]. exists q. split; [apply in_or_app; now left|exact Eq].
           ++ split; [exact Tb|]. exists p. split; [apply in_or_app; right; now left|reflexivity].
        -- intros (Hne & q & Hq & Eq). apply in_app_or in Hq as [Hq|[<-|[]]].
           ++ left. split; [exact Hne|]. exists q. auto.
           ++ right. symmetry. exact Eq.
    + assert (Eb : b = []). { destruct b; [reflexivity|discriminate]. }
      split; [|split; [exact IHn|]].
      * rewrite IHd at 1. apply map_item_of_ext. intros k Hk.
        rewrite group_of_snoc. unfold upd. fold b.
        destruct (str_eqb k b) eqn:E; [|reflexivity].
        apply str_eqb_eq in E. apply IHk in Hk as [Hne _]. congruence.
      * intros k. fold ks. rewrite IHk. split.
        -- intros (Hne & q & Hq & Eq). split; [exact Hne|]. exists q.
           split; [apply in_or_app; now left|exact Eq].
        -- intros (Hne & q & Hq & Eq). split; [exact Hne|].
           apply in_app_or in Hq as [Hq|[<-|[]]]; [exists q; auto|].
           fold b in Eq. congruence.
Qed.

(** Permits without a borough do not enter the dictionary. *)
Lemma group_by_borough_filter l :
  group_by_borough (List.filter (fun p => str_truthy (borough_normalized p)) l)
  = group_by_borough l.
Proof.
  unfold group_by_borough. generalize (@nil (str * list (permit float))) as d.
  induction l as [|p l IH]; intros d; simpl; [reflexivity|].
  destruct (str_truthy (borough_normalized p)) eqn:T; simpl.
  - rewrite T. apply IH.
  - apply IH.
Qed.

(** The sorted items of the dictionary. *)
Lemma sorted_items l :
  sorted item_ltb (group_by_borough l)
  = map (item_of (group_of l)) (sorted str_ltb (borough_keys l)).
Proof.
  destruct (group_by_borough_spec l) as (Hd & _ & _).
  rewrite Hd at 1. apply sorted_map. reflexivity.
Qed.

End Grouping.

(** ** The aggregator *)


Section Loops.
Context {A B : Type} (f : A -> result B).

Lemma for_each_map (g : A -> B) l :
  (forall x, In x l -> f x = Ok (g x)) -> for_each f l = Ok (map g l).
Proof.
  induction l as [|x l IH]; intros Hf; simpl; [reflexivity|].
  rewrite (Hf x) by now left. simpl.
  rewrite IH by (intros y Hy; apply Hf; now right). reflexivity.
Qed.

Lemma for_each_Ok l ys :
  for_each f l = Ok ys -> Forall2 (fun x y => f x = Ok y) l ys.
Proof.
  revert ys. induction l as [|x l IH]; simpl; intros ys.
  - intros [= <-]. constructor.
  - intros Hb. apply bind_Ok in Hb as (y & Hy & Hb).
    apply bind_Ok in Hb as (ys' & Hys & Hb). injection Hb as <-.
    constructor; [exact Hy|]. apply IH, Hys.
Qed.

End Loops.

Section Aggregator.
Context `{PyFloat}.

Lemma len_nonneg {A} (l : list A) : 0 <= len l.
Proof. unfold len. lia. Qed.

Lemma len_cons {A} (x : A) l : len (x :: l) = len l + 1.
Proof. unfold len. simpl. lia. Qed.

Lemma py_index_in_range l i :
  0 <= i < len l -> py_index l i = Ok (nth (Z.to_nat i) l 0).
Proof.
  intros Hi. unfold py_index.
  destruct (Z.ltb_spec i 0); [lia|].
  destruct (Z.leb_spec 0 i); [|lia].
  destruct (Z.ltb_spec i (len l)); [reflexivity|lia].
Qed.

Lemma py_truediv_nonzero a b : b <> 0 -> py_truediv a b = Ok (truediv a b).
Proof. intros Hb. unfold py_truediv. destruct (Z.eqb_spec b 0); [contradiction|reflexivity]. Qed.

Lemma duration_stats_nonempty days :
  days <> [] ->
  duration_stats days =
  Ok (median_of days, NFloat (truediv (py_sum days) (len days)), NInt (p90_of days),
      NFloat (pct_of 90 days), NFloat (pct_of 120 days)).
Proof.
  intros Hne. destruct days as [|d0 days']; [congruence|].
  set (days := d0 :: days') in *.
  assert (Hn : 1 <= len days) by (unfold days; rewrite len_cons; pose proof (len_nonneg days'); lia).
  unfold duration_stats. fold days.
  unfold median_of, p90_of, pct_of, p90_index.
  unfold mbind, result_bind.
  destruct (Z.eqb_spec (len days mod 2) 0) as [Hev|Hodd]; cbn [negb];
    repeat first [ rewrite py_index_in_range by lia
                 | rewrite py_truediv_nonzero by lia
                 | progress cbn beta iota ];
    reflexivity.
Qed.

Lemma duration_stats_values days : duration_stats days = Ok (duration_values days).
Proof.
  destruct days as [|d days]; [reflexivity|].
  now rewrite duration_stats_nonempty.
Qed.

Lemma borough_entry_returns year item : borough_entry year item = Ok (entry_of year item).
Proof.
  destruct item as [b ps]. unfold borough_entry, entry_of. cbn [fst snd].
  fold (issued_of ps). rewrite duration_stats_values. simpl.
  now destruct (duration_values _) as [[[[? ?] ?] ?] ?].
Qed.

(** The aggregator never raises: its result is the list of the entries of
    the boroughs in increasing order of their names. *)
Lemma compute_borough_stats_returns permits year :
  compute_borough_stats permits year =
  Ok (map (fun b => entry_of year (b, group_of permits b))
        (sorted str_ltb (borough_keys permits))).
Proof.
  unfold compute_borough_stats. rewrite sorted_items.
  rewrite (for_each_map _ (entry_of year)) by (intros; apply borough_entry_returns).
  now rewrite map_map.
Qed.

Lemma entry_borough year item : borough (entry_of year item) = fst item.
Proof. unfold entry_of. now destruct (duration_values _) as [[[[? ?] ?] ?] ?]. Qed.

Lemma stats_boroughs permits year stats :
  compute_borough_stats permits year = Ok stats ->
  map borough stats = sorted str_ltb (borough_keys permits).
Proof.
  rewrite compute_borough_stats_returns. intros [= <-].
  rewrite map_map. erewrite map_ext; [apply map_id|].
  intros b. apply entry_borough.
Qed.

Lemma stats_entry permits year stats e :
  compute_borough_stats permits year = Ok stats -> In e stats ->
  e = entry_of year (borough e, group_of permits (borough e))
  /\ In (borough e) (borough_keys permits).
Proof.
  rewrite compute_borough_stats_returns. intros [= <-] Hin.
  apply in_map_iff in Hin as (b & <- & Hb).
  rewrite entry_borough. cbn [fst]. split; [reflexivity|].
  eapply Permutation_in; [apply sorted_perm|exact Hb].
Qed.

Lemma borough_keys_perm l l' :
  Permutation l l' -> Permutation (borough_keys l) (borough_keys l').
Proof.
  intros Hp.
  destruct (group_by_borough_spec l) as (_ & Hn & Hk).
  destruct (group_by_borough_spec l') as (_ & Hn' & Hk').
  apply NoDup_Permutation; [now apply NoDup_ListNoDup|now apply NoDup_ListNoDup|].
  intros b. rewrite !list_elem_of_In, Hk, Hk'.
  split; intros (Hne & p & Hp' & Eb); (split; [exact Hne|]); exists p; split; try exact Eb.
  - eapply Permutation_in; [exact Hp|exact Hp'].
  - eapply Permutation_in; [symmetry; exact Hp|exact Hp'].
Qed.

End Aggregator.

(** ** The properties of the statistics *)

Section Statistics.
Context `{PyFloat} `{IsoParser}.

Lemma durations_sorted ps : StronglySorted Z.le (durations ps).
Proof.
  unfold durations.
  apply Sorted_StronglySorted; [intros a b c; apply Z.le_trans|].
  eapply Sorted_ind with (R := fun a b => Z.ltb b a = false).
  - constructor.
  - intros a l _ IH Ha. constructor; [exact IH|].
    destruct Ha as [|b l Hab]; constructor.
    destruct (Z.ltb_spec b a); [discriminate|assumption].
  - apply sorted_Sorted. intros a b Hab.
    destruct (Z.ltb_spec a b), (Z.ltb_spec b a); try reflexivity; try discriminate; lia.
Qed.

Lemma count_within_mono b1 b2 days :
  b1 <= b2 -> count_within b1 days <= count_within b2 days.
Proof.
  intros Hb. unfold count_within, len.
  induction days as [|d days IH]; simpl; [lia|].
  destruct (Z.leb_spec d b1), (Z.leb_spec d b2); simpl; lia.
Qed.

Lemma pending_count ps : len ps - len (issued_of ps) = len (pending_of ps).
Proof.
  unfold len, issued_of, pending_of.
  induction ps as [|p ps IH]; simpl; [reflexivity|].
  destruct (opt_truthy (issue_date p)); simpl; lia.
Qed.

Lemma entry_fields year item :
  let days := durations (issued_of (snd item)) in
  let e := entry_of year item in
  borough e = fst item
  /\ total_permits e = len (snd item)
  /\ permits_issued e = len (issued_of (snd item))
  /\ permits_pending e = len (pending_of (snd item))
  /\ median_processing_days e = py_round (fst (fst (fst (fst (duration_values days))))) 1
  /\ p90_processing_days e = py_round (snd (fst (fst (duration_values days)))) 1
  /\ pct_within_90_days e = py_round (snd (fst (duration_values days))) 2
  /\ pct_within_120_days e = py_round (snd (duration_values days)) 2.
Proof.
  intros days e. unfold e, entry_of. fold days.
  destruct (duration_values days) as [[[[? ?] ?] ?] ?]. cbn.
  rewrite pending_count. repeat split.
Qed.

Lemma median_of_round days : py_round (median_of days) 1 = median_of days.
Proof.
  unfold median_of. destruct (_ =? 0); simpl; [|reflexivity].
  now rewrite fround_half.
Qed.

(** C7. In every entry of [compute_borough_stats] whose group has a
    non-empty list of durations, sorted in increasing order and of length
    [n]: the median is the element of index [n / 2] when [n] is odd and the
    mean of the elements of indices [n / 2 - 1] and [n / 2] when [n] is
    even, and the 90th percentile is the element of index [9 * n / 10],
    at most [n - 1].  For the durations 10, 20, 30, 40 the median is 25.0,
    the percentile is 40 and the share within 90 days is 100.0. *)
Theorem duration_statistics permits year stats e :
  compute_borough_stats permits year = Ok stats -> In e stats ->
  let days := durations (issued_of (group_of permits (borough e))) in
  let n := len days in
  days <> [] ->
  StronglySorted Z.le days
  /\ median_processing_days e =
       (if n mod 2 =? 0
        then NFloat (truediv (nth (Z.to_nat (n / 2 - 1)) days 0
                              + nth (Z.to_nat (n / 2)) days 0) 2)
        else NInt (nth (Z.to_nat (n / 2)) days 0))
  /\ p90_processing_days e = NInt (nth (Z.to_nat (Z.min (9 * n / 10) (n - 1))) days 0)
  /\ (days = [10; 20; 30; 40] ->
      median_processing_days e = NFloat (float_of_int 25)
      /\ p90_processing_days e = NInt 40
      /\ pct_within_90_days e = NFloat (float_of_int 100)).
Proof.
  intros Hs Hin days n Hne.
  destruct (stats_entry _ _ _ _ Hs Hin) as [He _].
  destruct (entry_fields year (borough e, group_of permits (borough e)))
    as (_ & _ & _ & _ & Hm & Hp & Hw & _).
  rewrite <- He in Hm, Hp, Hw. cbn [snd] in Hm, Hp, Hw. fold days in Hm, Hp, Hw.
  assert (Hv : duration_values days =
               (median_of days, NFloat (truediv (py_sum days) (len days)), NInt (p90_of days),
                NFloat (pct_of 90 days), NFloat (pct_of 120 days))).
  { destruct days; [congruence|reflexivity]. }
  rewrite Hv in Hm, Hp, Hw. cbn [fst snd] in Hm, Hp, Hw.
  rewrite median_of_round in Hm.
  split; [apply durations_sorted|].
  split; [exact Hm|]. split; [exact Hp|].
  intros Ed. rewrite Hm, Hp, Hw, Ed. split; [|split; [reflexivity|]].
  - unfold median_of. cbn. f_equal. apply (truediv_exact 25 2). lia.
  - unfold pct_of. cbn. f_equal.
    rewrite (truediv_exact 1 4) by lia.
    rewrite fmul_int_exact by (cbn; lia).
    apply fround_int. lia.
Qed.

(** C8. [compute_borough_stats] returns one entry for each distinct
    non-empty [borough_normalized] of its input and no other, in strictly
    increasing order of the names, whatever the order of the input; the
    permits without a borough change nothing in the result, and the
    [total_permits] of an entry counts the permits of its borough. *)
Theorem borough_entries permits year :
  exists stats,
    compute_borough_stats permits year = Ok stats
    /\ StronglySorted str_lt (map borough stats)
    /\ List.NoDup (map borough stats)
    /\ (forall b, In b (map borough stats) <->
                  b <> [] /\ exists p, In p permits /\ borough_normalized p = b)
    /\ (forall permits' stats',
          Permutation permits permits' ->
          compute_borough_stats permits' year = Ok stats' ->
          map borough stats' = map borough stats)
    /\ compute_borough_stats
         (List.filter (fun p => str_truthy (borough_normalized p)) permits) year = Ok stats
    /\ (forall e, In e stats -> total_permits e = len (group_of permits (borough e))).
Proof.
  eexists. split; [apply compute_borough_stats_returns|].
  pose proof (stats_boroughs permits year _ (compute_borough_stats_returns permits year)) as Hb.
  destruct (group_by_borough_spec permits) as (_ & Hn & Hk).
  rewrite Hb.
  split; [apply sorted_str_strict, Hn|].
  split; [eapply Permutation_NoDup; [symmetry; apply sorted_perm|exact Hn]|].
  split.
  { intros b. rewrite <- Hk. split; intros Hin.
    - eapply Permutation_in; [apply sorted_perm|exact Hin].
    - eapply Permutation_in; [symmetry; apply sorted_perm|exact Hin]. }
  split.
  { intros permits' stats' Hp Hs'.
    rewrite (stats_boroughs _ _ _ Hs'). apply sorted_str_unique.
    symmetry. apply borough_keys_perm, Hp. }
  split.
  { unfold compute_borough_stats. rewrite group_by_borough_filter.
    apply compute_borough_stats_returns. }
  intros e He.
  destruct (stats_entry _ _ _ _ (compute_borough_stats_returns permits year) He) as [E _].
  rewrite E at 1.
  now destruct (entry_fields year (borough e, group_of permits (borough e))) as (_ & -> & _).
Qed.

(** C10. In every entry of [compute_borough_stats] the share of the
    durations within 120 days is at least the share within 90 days. *)
Theorem pct_within_120_at_least_90 permits year :
  exists stats,
    compute_borough_stats permits year = Ok stats
    /\ forall e, In e stats -> num_le (pct_within_90_days e) (pct_within_120_days e).
Proof.
  eexists. split; [apply compute_borough_stats_returns|].
  intros e He.
  destruct (stats_entry _ _ _ _ (compute_borough_stats_returns permits year) He) as [E _].
  destruct (entry_fields year (borough e, group_of permits (borough e)))
    as (_ & _ & _ & _ & _ & _ & H90 & H120).
  rewrite <- E in H90, H120. rewrite H90, H120. cbn [snd].
  destruct (durations _) as [|d days] eqn:Ed; [cbn; lia|].
  cbn [duration_values fst snd py_round num_le].
  assert (Hn : 0 < len (d :: days)) by (rewrite len_cons; pose proof (len_nonneg days); lia).
  apply fround_mono; [lia|]. unfold pct_of.
  apply fmul_int_mono; [lia|].
  apply truediv_mono; [exact Hn|]. apply count_within_mono. lia.
Qed.

Lemma Forall2_In_left {A B} (R : A -> B -> Prop) l k x :
  Forall2 R l k -> In x l -> exists y, In y k /\ R x y.
Proof.
  induction 1 as [|a b l k Hab _ IH]; intros Hin; [destruct Hin|].
  destruct Hin as [->|Hin].
  - exists b. split; [now left|exact Hab].
  - destruct (IH Hin) as (y & Hy & Hr). exists y. split; [now right|exact Hr].
Qed.

Lemma stats_entry_of permits year stats b :
  compute_borough_stats permits year = Ok stats ->
  In b (borough_keys permits) ->
  In (entry_of year (b, group_of permits b)) stats.
Proof.
  rewrite compute_borough_stats_returns. intros [= <-] Hb.
  apply in_map_iff. exists b. split; [reflexivity|].
  eapply Permutation_in; [symmetry; apply sorted_perm|exact Hb].
Qed.

(** The [processing_days] of a record without issue date. *)
Lemma expected_processing_days_no_issue (raw : raw_record) :
  raw !! "date_emission" = None -> expected_processing_days raw = None.
Proof.
  intros He. unfold expected_processing_days.
  assert (E : dict_get raw "date_emission" = VNone) by (unfold dict_get; now rewrite He).
  rewrite E. now destruct (parsed_date _).
Qed.

(** C9. In the processing step of [main], a record without [date_debut]
    is not among the permits passed to the aggregation; a record whose
    [date_debut] is a non-empty string and whose [date_emission] is
    missing is among them, with [issue_date] and [processing_days] null,
    and the entry of its borough counts it in [total_permits] and in
    [permits_pending]. *)
Theorem process_year_filtering raw_records year processed stats :
  process_year raw_records year = Ok (processed, stats) ->
  (forall r p,
     In r raw_records -> r !! "date_debut" = None ->
     process_permit r = Ok p -> ~ In p processed)
  /\ (forall r s,
        In r raw_records ->
        r !! "date_debut" = Some (VStr s) -> s <> [] ->
        r !! "date_emission" = None ->
        exists p,
          process_permit r = Ok p
          /\ In p processed
          /\ issue_date p = None
          /\ processing_days p = None
          /\ (borough_normalized p <> [] ->
              exists e,
                In e stats
                /\ borough e = borough_normalized p
                /\ total_permits e = len (group_of processed (borough e))
                /\ In p (group_of processed (borough e))
                /\ permits_pending e = len (pending_of (group_of processed (borough e)))
                /\ In p (pending_of (group_of processed (borough e))))).
Proof.
  unfold process_year. intros Hy.
  apply bind_Ok in Hy as (all & Hall & Hy).
  apply bind_Ok in Hy as (stats' & Hstats & Hy).
  injection Hy as <- <-.
  set (processed := List.filter (fun p => opt_truthy (application_date p)) all) in *.
  split.
  - intros r p _ Hr Hp Hin.
    destruct (process_permit_dates r p Hp) as (_ & Ha & _).
    assert (E : dict_get r "date_debut" = VNone) by (unfold dict_get; now rewrite Hr).
    rewrite E in Ha. destruct Ha as [[_ Ha]|(s & Es & _)]; [|discriminate].
    apply List.filter_In in Hin as [_ Ht]. rewrite Ha in Ht. discriminate.
  - intros r s Hr Hd Hs He.
    destruct (Forall2_In_left _ _ _ _ (for_each_Ok _ _ _ Hall) Hr) as (p & Hin & Hp).
    destruct (process_permit_dates r p Hp) as (Hpd & Ha & Hi).
    rewrite (expected_processing_days_no_issue r He) in Hpd.
    assert (Ed : dict_get r "date_debut" = VStr s) by (unfold dict_get; now rewrite Hd).
    assert (Ee : dict_get r "date_emission" = VNone) by (unfold dict_get; now rewrite He).
    rewrite Ed in Ha. rewrite Ee in Hi.
    destruct Hi as [[_ Hi]|(s' & Es' & _)]; [|discriminate].
    assert (Happ : application_date p = Some (slice_to 10 s)).
    { destruct Ha as [[T _]|(s' & Es' & _ & Ea)].
      - destruct s; [congruence|discriminate].
      - now injection Es' as <-. }
    assert (Hproc : In p processed).
    { apply List.filter_In. split; [exact Hin|]. rewrite Happ.
      destruct s; [congruence|reflexivity]. }
    exists p. repeat (split; [assumption|]).
    intros Hb.
    set (b := borough_normalized p) in *.
    assert (Hkey : In b (borough_keys processed)).
    { apply group_by_borough_spec. split; [exact Hb|]. now exists p. }
    exists (entry_of year (b, group_of processed b)).
    destruct (entry_fields year (b, group_of processed b)) as (Eb & Et & _ & Ep & _).
    cbn [fst snd] in Eb, Et, Ep. rewrite Eb.
    assert (Hg : In p (group_of processed b)).
    { apply List.filter_In. split; [exact Hproc|]. now apply str_eqb_eq. }
    split; [apply stats_entry_of; assumption|].
    split; [reflexivity|]. split; [exact Et|]. split; [exact Hg|]. split; [exact Ep|].
    apply List.filter_In. split; [exact Hg|]. now rewrite Hi.
Qed.

End Statistics.

(** ** The properties on the example records *)

Section Witnesses.
#[local] Existing Instance rational_float.
#[local] Existing Instance iso_parser.

(** The third scenario of the specification: 70 days from 10 January to
    20 March 2024. *)
Lemma process_permit_processing_days_witness :
  process_permit issued_record = Ok issued_permit
  /\ expected_processing_days issued_record = Some 70
  /\ processing_days issued_permit = expected_processing_days issued_record
  /\ (forall d, processing_days issued_permit = Some d -> 0 <= d).
Proof.
  assert (E : process_permit issued_record = Ok issued_permit) by (vm_compute; reflexivity).
  split; [exact E|]. split; [vm_compute; reflexivity|].
  exact (proj2 (process_permit_processing_days issued_record) issued_permit E).
Defined.

(** C3 fails on a date that does not parse: the string is stored, by its
    first ten characters, and not null. *)
Lemma unparseable_date_is_kept :
  dict_get malformed_date_record "date_debut" = VStr (u "not-a-date")
  /\ parsed_date (VStr (u "not-a-date")) = None
  /\ exists out,
       process_permit malformed_date_record = Ok out
       /\ application_date out = Some (u "not-a-date").
Proof.
  split; [reflexivity|]. split; [vm_compute; reflexivity|].
  destruct (process_permit malformed_date_record) as [out|e] eqn:E;
    vm_compute in E; [|discriminate].
  exists out. split; [reflexivity|]. injection E as <-. reflexivity.
Qed.

(** The same record under the rule of the code: ten characters kept, no
    issue date, no duration. *)
Lemma process_permit_date_fields_witness :
  exists out,
    process_permit malformed_date_record = Ok out
    /\ application_date out = Some (slice_to 10 (u "not-a-date"))
    /\ issue_date out = None
    /\ processing_days out = None.
Proof.
  destruct (process_permit malformed_date_record) as [out|e] eqn:E;
    [|vm_compute in E; discriminate].
  exists out. split; [reflexivity|].
  destruct (process_permit_date_fields malformed_date_record out E) as (Ha & _ & _ & Hi & Hpd).
  split; [apply Ha; [reflexivity|discriminate]|].
  split; [apply Hi; reflexivity|].
  apply Hpd. left. vm_compute. reflexivity.
Defined.

(** C4 fails on [type_code]: without its key the field is the empty
    string, a default that is not null. *)
Lemma missing_type_code_is_empty_string :
  (∅ : raw_record) !! "code_type_base_demande" = None
  /\ exists out, process_permit ∅ = Ok out /\ type_code out = VStr [].
Proof.
  split; [reflexivity|].
  destruct (process_permit ∅) as [out|e] eqn:E; vm_compute in E; [|discriminate].
  exists out. split; [reflexivity|]. injection E as <-. reflexivity.
Qed.

(** The passthrough fields of the issued permit. *)
Lemma process_permit_passthrough_witness :
  process_permit issued_record = Ok issued_permit
  /\ external_id issued_permit = VStr (u "3001234567")
  /\ housing_units issued_permit = VInt 3
  /\ address issued_permit = VNone
  /\ type_code issued_permit = VStr [].
Proof.
  assert (E : process_permit issued_record = Ok issued_permit) by (vm_compute; reflexivity).
  split; [exact E|].
  destruct (process_permit_passthrough issued_record issued_permit E)
    as (H1 & _ & H3 & H4 & _ & _ & _ & _ & H9).
  rewrite H1, H3, H4, H9. repeat split.
Defined.

(** The sixth scenario of the specification. *)
Lemma duration_statistics_witness :
  compute_borough_stats verdun_permits 2024 = Ok [verdun_entry]
  /\ median_processing_days verdun_entry = NFloat (float_of_int 25)
  /\ p90_processing_days verdun_entry = NInt 40
  /\ pct_within_90_days verdun_entry = NFloat (float_of_int 100).
Proof.
  assert (E : compute_borough_stats verdun_permits 2024 = Ok [verdun_entry])
    by (vm_compute; reflexivity).
  split; [exact E|].
  refine (proj2 (proj2 (proj2
    (duration_statistics verdun_permits 2024 [verdun_entry] verdun_entry
       E (or_introl eq_refl) _))) _).
  - vm_compute. discriminate.
  - vm_compute. reflexivity.
Defined.

(** The fifth scenario of the specification: of three records, the one
    without [date_debut] is dropped and the one without [date_emission] is
    kept as a pending permit. *)
Lemma process_year_filtering_witness :
  exists processed stats,
    process_year [issued_record; undated_record; pending_record] 2024 = Ok (processed, stats)
    /\ (forall p, process_permit undated_record = Ok p -> ~ In p processed)
    /\ exists p,
         process_permit pending_record = Ok p
         /\ In p processed
         /\ issue_date p = None
         /\ processing_days p = None
         /\ exists e,
              In e stats
              /\ borough e = u "Le Sud-Ouest"
              /\ total_permits e = 1
              /\ permits_pending e = 1.
Proof.
  destruct (process_year [issued_record; undated_record; pending_record] 2024)
    as [[processed stats]|e] eqn:E; [|vm_compute in E; discriminate].
  exists processed, stats. split; [reflexivity|].
  destruct (process_year_filtering _ _ _ _ E) as [H1 H2].
  split.
  - intros p Hp.
    apply (H1 undated_record p); [right; left; reflexivity|reflexivity|exact Hp].
  - destruct (H2 pending_record (u "2024-02-01T00:00:00"))
      as (p & Hp & Hin & Hi & Hd & He);
      [right; right; left; reflexivity|reflexivity|discriminate|reflexivity|].
    exists p. repeat (split; [assumption|]).
    assert (Ep : process_permit pending_record = Ok p) by exact Hp.
    vm_compute in Hp. injection Hp as <-.
    vm_compute in E. injection E as <- <-.
    destruct He as (e & Hin' & Hb & Ht & _ & Hpe & _); [discriminate|].
    exists e. split; [exact Hin'|]. split; [exact Hb|].
    split; [rewrite Ht, Hb|rewrite Hpe, Hb]; vm_compute; reflexivity.
Defined.

End Witnesses.
